(** * Library catalogue: book search and author statistics

    A shallow embedding of the two route handlers of the catalogue that
    carry logic of their own:

    - the book search handler ([Search.GET]): query parameters are
      normalised, a filter object is built, a count and a page of rows
      are requested from the record store, and the pagination block is
      derived from the count;
    - the author statistics handler ([Stats.GET]): the books of one
      author are reduced to first/latest book, page statistics and the
      list of genres.

    The record store is an external collaborator; the handlers are
    parameterised by its answers. *)

From Stdlib Require Import ZArith QArith Qround Lia.
From Stdlib Require Import String Ascii.
From stdpp Require Import base decidable option list sorting strings.

Local Open Scope Z_scope.

(** ** The host language's values *)

Module Js.

(** A call into the record store either returns or throws. *)
Inductive outcome (A : Type) : Type :=
| Returns (a : A)
| Throws.
Arguments Returns {A} a.
Arguments Throws {A}.

(** Sequencing of store calls inside one [try] block: a throw skips the
    rest of the block. *)
#[export] Instance outcome_bind : MBind outcome :=
  fun A B (k : A -> outcome B) (m : outcome A) =>
    match m with
    | Returns a => k a
    | Throws => Throws
    end.

(** [try { body } catch { handler }] *)
Definition try_catch {A} (body : outcome A) (handler : A) : A :=
  match body with
  | Returns a => a
  | Throws => handler
  end.

(** Numbers.  A finite number is read as an exact rational kept in lowest
    terms; the two infinities and NaN are values of their own.  Counts,
    page numbers and page sizes are integers far below 2^53, where the
    host's doubles are exact; a negative zero is read as zero. *)
Inductive number : Type :=
| NaN
| PosInf
| NegInf
| Fin (q : Q).

Definition of_Z (z : Z) : number := Fin (inject_Z z).

(** The sign of a rational, as a comparison with zero. *)
Definition Qsign (q : Q) : comparison := (Qnum q ?= 0)%Z.

Definition neg (a : number) : number :=
  match a with
  | NaN => NaN
  | PosInf => NegInf
  | NegInf => PosInf
  | Fin q => Fin (Qred (- q))
  end.

Definition add (a b : number) : number :=
  match a, b with
  | NaN, _ | _, NaN => NaN
  | PosInf, NegInf | NegInf, PosInf => NaN
  | PosInf, _ | _, PosInf => PosInf
  | NegInf, _ | _, NegInf => NegInf
  | Fin x, Fin y => Fin (Qred (x + y))
  end.

(** [a - b] *)
Definition sub (a b : number) : number := add a (neg b).

Definition signed_inf (c : comparison) : number :=
  match c with
  | Gt => PosInf
  | Lt => NegInf
  | Eq => NaN
  end.

Definition flip_sign (c : comparison) : comparison := CompOpp c.

(** [a * b] *)
Definition mul (a b : number) : number :=
  match a, b with
  | NaN, _ | _, NaN => NaN
  | Fin x, Fin y => Fin (Qred (x * y))
  | PosInf, Fin y | Fin y, PosInf => signed_inf (Qsign y)
  | NegInf, Fin y | Fin y, NegInf => signed_inf (flip_sign (Qsign y))
  | PosInf, PosInf | NegInf, NegInf => PosInf
  | PosInf, NegInf | NegInf, PosInf => NegInf
  end.

(** [a / b].  A finite non-zero number over zero is an infinity, zero
    over zero is NaN, a finite number over an infinity is zero. *)
Definition div (a b : number) : number :=
  match a, b with
  | NaN, _ | _, NaN => NaN
  | Fin x, Fin y =>
      match Qsign y with
      | Eq => signed_inf (Qsign x)
      | _ => Fin (Qred (x / y))
      end
  | Fin _, (PosInf | NegInf) => Fin 0
  | (PosInf | NegInf), (PosInf | NegInf) => NaN
  | PosInf, Fin y =>
      match Qsign y with Lt => NegInf | _ => PosInf end
  | NegInf, Fin y =>
      match Qsign y with Lt => PosInf | _ => NegInf end
  end.

(** [a < b]: false as soon as one side is NaN. *)
Definition lt (a b : number) : bool :=
  match a, b with
  | NaN, _ | _, NaN => false
  | _, NegInf => false
  | PosInf, _ => false
  | NegInf, _ => true
  | Fin _, PosInf => true
  | Fin x, Fin y => negb (Qle_bool y x)
  end.

(** [a > b] *)
Definition gt (a b : number) : bool := lt b a.

(** [Math.min(a, b)]: NaN as soon as one argument is NaN. *)
Definition Math_min (a b : number) : number :=
  match a, b with
  | NaN, _ | _, NaN => NaN
  | _, _ => if lt b a then b else a
  end.

(** [Math.ceil(a)] *)
Definition Math_ceil (a : number) : number :=
  match a with
  | Fin q => of_Z (Qceiling q)
  | _ => a
  end.

(** [Math.round] on a rational: the nearest integer, a half going up. *)
Definition round_half_up (q : Q) : Z := Qfloor (q + (1 # 2)).

(** [Math.round(a)] *)
Definition Math_round (a : number) : number :=
  match a with
  | Fin q => of_Z (round_half_up q)
  | _ => a
  end.

(** *** Strings

    A string is a sequence of code units; the development reads the
    characters of a Rocq string as code units below 256. *)

(** [s || d] on a string-or-null: null and the empty string are falsy. *)
Definition or_else (s : option string) (d : string) : string :=
  match s with
  | Some EmptyString | None => d
  | Some s => s
  end.

(** Truthiness of a string. *)
Definition truthy (s : string) : bool :=
  match s with
  | EmptyString => false
  | _ => true
  end.

(** Truthiness of a string-or-null. *)
Definition truthy_opt (s : option string) : bool :=
  match s with
  | Some s => truthy s
  | None => false
  end.

(** White space skipped by [parseInt]: tab, line feed, vertical tab, form
    feed, carriage return, space, no-break space. *)
Definition is_white (c : ascii) : bool :=
  let n := nat_of_ascii c in
  ((9 <=? n)%nat && (n <=? 13)%nat) || (n =? 32)%nat || (n =? 160)%nat.

Fixpoint trim_start (s : string) : string :=
  match s with
  | String c r => if is_white c then trim_start r else s
  | EmptyString => s
  end.

(** The value of a character as a digit in the given radix. *)
Definition digit_value (radix : Z) (c : ascii) : option Z :=
  let n := Z.of_nat (nat_of_ascii c) in
  let v :=
    if (48 <=? n) && (n <=? 57) then Some (n - 48)
    else if (97 <=? n) && (n <=? 122) then Some (n - 97 + 10)
    else if (65 <=? n) && (n <=? 90) then Some (n - 65 + 10)
    else None in
  match v with
  | Some d => if d <? radix then Some d else None
  | None => None
  end.

(** The longest prefix of digits, read left to right; [acc] is [None]
    until a first digit has been seen. *)
Fixpoint read_digits (radix : Z) (acc : option Z) (s : string) : option Z :=
  match s with
  | String c r =>
      match digit_value radix c with
      | Some d =>
          read_digits radix
            (Some (match acc with Some a => a * radix + d | None => d end)) r
      | None => acc
      end
  | EmptyString => acc
  end.

(** [parseInt(s)] with no radix argument: leading white space, an
    optional sign, an optional [0x]/[0X] prefix selecting radix 16, then
    the longest prefix of digits; NaN when there is no digit. *)
Definition parseInt (s : string) : number :=
  let s := trim_start s in
  let '(negative, s) :=
    match s with
    | String "-" r => (true, r)
    | String "+" r => (false, r)
    | _ => (false, s)
    end in
  let '(radix, s) :=
    match s with
    | String "0" (String "x" r) | String "0" (String "X" r) => (16, r)
    | _ => (10, s)
    end in
  match read_digits radix None s with
  | Some v => of_Z (if negative then - v else v)
  | None => NaN
  end.

End Js.

(** ** The book search handler *)

Module Search.
Import Js.

(** The parsed query string: name/value pairs in order of appearance. *)
Definition URLSearchParams : Type := list (string * string).

(** [searchParams.get(name)]: the first value under that name, or null. *)
Fixpoint get (name : string) (searchParams : URLSearchParams) : option string :=
  match searchParams with
  | (k, v) :: rest => if String.eqb k name then Some v else get name rest
  | [] => None
  end.

(** *** Rows of the record store *)

Record Author : Type := {
  author_id : string;
  author_name : string;
  author_email : string;
  author_nationality : option string;
}.

Record Book : Type := {
  book_id : string;
  book_title : string;
  book_publishedYear : option Z;
  book_genre : option string;
  book_pages : option Z;
  book_author : Author;
}.

(** *** The filter object *)

Record StringFilter : Type := {
  contains : string;
  mode : string;
}.

Record AuthorWhere : Type := {
  name : StringFilter;
}.

Record Where : Type := {
  where_title : option StringFilter;
  where_genre : option string;
  where_author : option AuthorWhere;
}.

(** [{}] *)
Definition empty_where : Where :=
  {| where_title := None; where_genre := None; where_author := None |}.

Definition set_title (w : Where) (f : StringFilter) : Where :=
  {| where_title := Some f; where_genre := where_genre w;
     where_author := where_author w |}.

Definition set_genre (w : Where) (g : string) : Where :=
  {| where_title := where_title w; where_genre := Some g;
     where_author := where_author w |}.

Definition set_author (w : Where) (a : AuthorWhere) : Where :=
  {| where_title := where_title w; where_genre := where_genre w;
     where_author := Some a |}.

(** The arguments of the page query.  Its [include] block, which joins
    the owning author's id, name, email and nationality, is the same for
    every request and is left out. *)
Record FindManyArgs : Type := {
  arg_where : Where;
  arg_orderBy : string * string;
  arg_skip : number;
  arg_take : number;
}.

(** *** The response *)

Record PaginationInfo : Type := {
  pg_page : number;
  pg_limit : number;
  pg_total : number;
  pg_totalPages : number;
  pg_hasNext : bool;
  pg_hasPrev : bool;
}.

Inductive Body : Type :=
| SearchResult (data : list Book) (pagination : PaginationInfo)
| ErrorBody (error : string).

Record Response : Type := {
  status : Z;
  body : Body;
}.

(** *** Normalisation of the query parameters *)

Definition search (sp : URLSearchParams) : string := or_else (get "search" sp) "".
Definition genre (sp : URLSearchParams) : string := or_else (get "genre" sp) "".
Definition authorName (sp : URLSearchParams) : string :=
  or_else (get "authorName" sp) "".

Definition page (sp : URLSearchParams) : number :=
  parseInt (or_else (get "page" sp) "1").

Definition limit (sp : URLSearchParams) : number :=
  Math_min (parseInt (or_else (get "limit" sp) "10")) (of_Z 50).

Definition sortBy (sp : URLSearchParams) : string :=
  or_else (get "sortBy" sp) "createdAt".
Definition order (sp : URLSearchParams) : string :=
  or_else (get "order" sp) "desc".

Definition validSortFields : list string :=
  ["title"; "publishedYear"; "createdAt"]%string.

(** [validSortFields.includes(x)] *)
Definition includes (l : list string) (x : string) : bool :=
  existsb (String.eqb x) l.

Definition sortField (sp : URLSearchParams) : string :=
  if includes validSortFields (sortBy sp) then sortBy sp else "createdAt"%string.

Definition sortOrder (sp : URLSearchParams) : string :=
  if String.eqb (order sp) "asc" then "asc"%string else "desc"%string.

(** *** The filter conditions *)

Definition where_ (sp : URLSearchParams) : Where :=
  let w := empty_where in
  let w :=
    if truthy (search sp)
    then set_title w {| contains := search sp; mode := "insensitive" |}
    else w in
  let w := if truthy (genre sp) then set_genre w (genre sp) else w in
  let w :=
    if truthy (authorName sp)
    then set_author w
           {| name := {| contains := authorName sp; mode := "insensitive" |} |}
    else w in
  w.

Definition skip (sp : URLSearchParams) : number :=
  mul (sub (page sp) (of_Z 1)) (limit sp).

(** *** The handler *)

Section Handler.

(** The record store: the count of the rows that satisfy a filter, and
    the rows of one page. *)
Variable count : Where -> outcome Z.
Variable findMany : FindManyArgs -> outcome (list Book).

Definition pagination (sp : URLSearchParams) (total : Z) : PaginationInfo :=
  let totalPages := Math_ceil (div (of_Z total) (limit sp)) in
  let hasNext := lt (page sp) totalPages in
  let hasPrev := gt (page sp) (of_Z 1) in
  {| pg_page := page sp; pg_limit := limit sp; pg_total := of_Z total;
     pg_totalPages := totalPages; pg_hasNext := hasNext; pg_hasPrev := hasPrev |}.

Definition findManyArgs (sp : URLSearchParams) : FindManyArgs :=
  {| arg_where := where_ sp;
     arg_orderBy := (sortField sp, sortOrder sp);
     arg_skip := skip sp;
     arg_take := limit sp |}.

Definition GET (sp : URLSearchParams) : Response :=
  try_catch
    (total ← count (where_ sp);
     books ← findMany (findManyArgs sp);
     Returns {| status := 200;
                body := SearchResult books (pagination sp total) |})
    {| status := 500; body := ErrorBody "Error al buscar libros" |}.

End Handler.

(** *** What the store makes of a filter object

    The keys of a filter object are conjoined; [contains] with mode
    [insensitive] is substring containment up to letter case; a plain
    string is equality with a non-null column. *)

Definition to_lower (c : ascii) : ascii :=
  let n := nat_of_ascii c in
  if (65 <=? n)%nat && (n <=? 90)%nat then ascii_of_nat (n + 32) else c.

Fixpoint lower (s : string) : string :=
  match s with
  | String c r => String (to_lower c) (lower r)
  | EmptyString => EmptyString
  end.

(** [needle] occurs in [hay] as a contiguous run. *)
Fixpoint occurs_in (needle hay : string) : bool :=
  String.prefix needle hay ||
  match hay with
  | String _ r => occurs_in needle r
  | EmptyString => false
  end.

(** [s] occurs in [t] once both are put in lower case. *)
Definition contains_insensitive (s t : string) : Prop :=
  exists pre post, lower t = (pre +:+ lower s +:+ post)%string.

Definition holds_string (f : StringFilter) (value : string) : bool :=
  if String.eqb (mode f) "insensitive"
  then occurs_in (lower (contains f)) (lower value)
  else occurs_in (contains f) value.

Definition holds_opt {A} (cond : option A) (test : A -> bool) : bool :=
  match cond with
  | Some c => test c
  | None => true
  end.

Definition satisfies (w : Where) (b : Book) : bool :=
  holds_opt (where_title w) (fun f => holds_string f (book_title b))
  && holds_opt (where_genre w)
       (fun g => match book_genre b with
                 | Some g' => String.eqb g' g
                 | None => false
                 end)
  && holds_opt (where_author w)
       (fun a => holds_string (name a) (author_name (book_author b))).

End Search.

(** ** The author statistics handler *)

Module Stats.
Import Js.

(** *** Rows of the record store, as selected by the handler *)

Record Author : Type := {
  author_id : string;
  author_name : string;
}.

Record Book : Type := {
  book_id : string;
  title : string;
  publishedYear : option Z;
  pages : option Z;
  genre : option string;
}.

(** *** The response *)

Record BookYear : Type := {
  by_title : string;
  year : option Z;
}.

Record BookPages : Type := {
  bp_title : string;
  bp_pages : option Z;
}.

Record AuthorStats : Type := {
  authorId : string;
  authorName : string;
  totalBooks : Z;
  stats_firstBook : option BookYear;
  stats_latestBook : option BookYear;
  stats_averagePages : number;
  stats_genres : list (option string);
  stats_longestBook : option BookPages;
  stats_shortestBook : option BookPages;
}.

Inductive Body : Type :=
| StatsBody (stats : AuthorStats)
| ErrorBody (error : string).

Record Response : Type := {
  status : Z;
  body : Body;
}.

(** *** Arrays *)

(** [a[i]] followed by a property read: reading a property of
    [undefined] throws. *)
Definition at_index {A} (a : list A) (i : nat) : outcome A :=
  match a !! i with
  | Some x => Returns x
  | None => Throws
  end.

(** [a.reduce(f)] with no initial value: the first element seeds the
    accumulator; on an empty array it throws. *)
Definition reduce {A} (f : A -> A -> A) (a : list A) : outcome A :=
  match a with
  | x :: rest => Returns (foldl f x rest)
  | [] => Throws
  end.

(** [n || 0] on a number-or-null column. *)
Definition or_zero (n : option Z) : Z :=
  match n with
  | Some n => n
  | None => 0
  end.

(** [new Set(a)] listed by [Array.from]: the distinct elements, each at
    the place of its first occurrence. *)
Definition Set_add {A} `{EqDecision A} (s : list A) (x : A) : list A :=
  if decide (x ∈ s) then s else s ++ [x].

Definition Set_from {A} `{EqDecision A} (a : list A) : list A :=
  foldl Set_add [] a.

(** The string an array element is compared as by [sort()]. *)
Definition ToString (x : option string) : string :=
  match x with
  | Some s => s
  | None => "null"
  end.

(** Order of code units, the default order of [sort()]. *)
Definition sort_le (x y : option string) : bool :=
  String.leb (ToString x) (ToString y).

Fixpoint sort_insert (x : option string) (l : list (option string))
  : list (option string) :=
  match l with
  | y :: r => if sort_le x y then x :: l else y :: sort_insert x r
  | [] => [x]
  end.

(** [a.sort()] with no comparator: a stable sort on [ToString]. *)
Definition sort (a : list (option string)) : list (option string) :=
  foldr sort_insert [] a.

(** *** The aggregates *)

Definition booksWithYear (books : list Book) : list Book :=
  filter (fun book => publishedYear book <> None) books.

(** The object literal [{ title: b.title, year: b.publishedYear }]. *)
Definition bookYear (b : Book) : BookYear :=
  {| by_title := title b; year := publishedYear b |}.

Definition firstBook (books : list Book) : outcome (option BookYear) :=
  let booksWithYear := booksWithYear books in
  if decide (0 < length booksWithYear)%nat
  then
    first ← at_index booksWithYear 0;
    Returns (Some (bookYear first))
  else Returns None.

Definition latestBook (books : list Book) : outcome (option BookYear) :=
  let booksWithYear := booksWithYear books in
  if decide (0 < length booksWithYear)%nat
  then
    latest ← at_index booksWithYear (length booksWithYear - 1);
    Returns (Some (bookYear latest))
  else Returns None.

Definition booksWithPages (books : list Book) : list Book :=
  filter (fun book => pages book <> None) books.

(** The running sum of the page counts, seeded with 0. *)
Definition sumPages (booksWithPages : list Book) : Z :=
  foldl (fun sum book => sum + or_zero (pages book)) 0 booksWithPages.

Definition averagePages (books : list Book) : number :=
  let booksWithPages := booksWithPages books in
  if decide (0 < length booksWithPages)%nat
  then Math_round (div (of_Z (sumPages booksWithPages))
                       (of_Z (Z.of_nat (length booksWithPages))))
  else of_Z 0.

Definition genres (books : list Book) : list (option string) :=
  sort (Set_from (genre <$> filter (fun book => truthy_opt (genre book)) books)).

Definition longer (max book : Book) : Book :=
  if or_zero (pages book) >? or_zero (pages max) then book else max.

Definition longestBook (books : list Book) : outcome (option Book) :=
  let booksWithPages := booksWithPages books in
  if decide (0 < length booksWithPages)%nat
  then b ← reduce longer booksWithPages; Returns (Some b)
  else Returns None.

Definition shorter (min book : Book) : Book :=
  if or_zero (pages book) <? or_zero (pages min) then book else min.

Definition shortestBook (books : list Book) : outcome (option Book) :=
  let booksWithPages := booksWithPages books in
  if decide (0 < length booksWithPages)%nat
  then b ← reduce shorter booksWithPages; Returns (Some b)
  else Returns None.

Definition bookData (b : option Book) : option BookPages :=
  match b with
  | Some b => Some {| bp_title := title b; bp_pages := pages b |}
  | None => None
  end.

(** The statistics of one author's books, as the handler computes them
    once both store calls have returned. *)
Definition stats (author : Author) (books : list Book) : outcome AuthorStats :=
  if decide (length books = 0%nat)
  then
    Returns {| authorId := author_id author; authorName := author_name author;
               totalBooks := 0;
               stats_firstBook := None; stats_latestBook := None;
               stats_averagePages := of_Z 0; stats_genres := [];
               stats_longestBook := None; stats_shortestBook := None |}
  else
    let totalBooks := Z.of_nat (length books) in
    firstBook ← firstBook books;
    latestBook ← latestBook books;
    let averagePages := averagePages books in
    let genres := genres books in
    longestBook ← longestBook books;
    let longestBookData := bookData longestBook in
    shortestBook ← shortestBook books;
    let shortestBookData := bookData shortestBook in
    Returns {| authorId := author_id author; authorName := author_name author;
               totalBooks := totalBooks;
               stats_firstBook := firstBook; stats_latestBook := latestBook;
               stats_averagePages := averagePages; stats_genres := genres;
               stats_longestBook := longestBookData;
               stats_shortestBook := shortestBookData |}.

Section Handler.

(** The record store: the author under an id, if there is one, and the
    books of an author by ascending year of publication. *)
Variable findUnique : string -> outcome (option Author).
Variable findMany : string -> outcome (list Book).

Definition GET (id : string) : Response :=
  try_catch
    (author ← findUnique id;
     match author with
     | None =>
         Returns {| status := 404; body := ErrorBody "Autor no encontrado" |}
     | Some author =>
         books ← findMany id;
         stats ← stats author books;
         Returns {| status := 200; body := StatsBody stats |}
     end)
    {| status := 500; body := ErrorBody "Error al obtener estadísticas del autor" |}.

End Handler.

(** The order in which the store hands the books over: ascending year of
    publication, books without a year after those with one. *)
Definition year_le (a b : Book) : bool :=
  match publishedYear a, publishedYear b with
  | Some x, Some y => x <=? y
  | Some _, None => true
  | None, None => true
  | None, Some _ => false
  end.

Definition by_year_asc (books : list Book) : Prop :=
  Sorted (fun a b => year_le a b = true) books.

(** The defined page counts of a list of books, in order. *)
Definition pageCounts (books : list Book) : list Z := omap pages books.

(** Code-unit order on strings, strict. *)
Definition string_lt (x y : string) : Prop := String.ltb x y = true.

End Stats.

(** ** Decimal rendering of integers *)

Module JsText.
Import Js.

(** The character of a decimal digit. *)
Definition digit_char (d : Z) : ascii := ascii_of_nat (48 + Z.to_nat d).

(** The decimal digits of a non-negative integer, most significant
    first, put in front of [acc].  The fuel bounds the number of
    digits. *)
Fixpoint digits_of (fuel : nat) (n : Z) (acc : string) : string :=
  match fuel with
  | O => String (digit_char n) acc
  | S fuel' =>
      if n <? 10 then String (digit_char n) acc
      else digits_of fuel' (n / 10) (String (digit_char (n mod 10)) acc)
  end.

(** [n.toString()] on an integer: decimal digits, with a leading minus
    sign below zero.  (The host switches to exponent notation from 1e21
    on; page numbers, years and page counts are far below.) *)
Definition toString (n : Z) : string :=
  if n <? 0
  then String "-" (digits_of (S (Z.to_nat (Z.log2 (- n)))) (- n) EmptyString)
  else digits_of (S (Z.to_nat (Z.log2 n))) n EmptyString.

(** [n?.toString() || ''] on a number-or-null. *)
Definition toString_or_empty (n : option Z) : string :=
  match n with
  | Some n => toString n
  | None => EmptyString
  end.

(** [s ? parseInt(s) : null] on the text of a form field. *)
Definition parseInt_or_null (s : string) : option number :=
  if truthy s then Some (parseInt s) else None.

(** [s || ''] on a string-or-null. *)
Definition or_empty (s : option string) : string := or_else s EmptyString.

End JsText.

(** ** The pagination bar *)

Module Paginator.

Definition maxPagesToShow : Z := 5.

(** The first assignment of [startPage];
    [Math.floor(maxPagesToShow / 2)] is integer division. *)
Definition startPage_initial (currentPage : Z) : Z :=
  Z.max 1 (currentPage - maxPagesToShow / 2).

Definition endPage (currentPage totalPages : Z) : Z :=
  Z.min totalPages (startPage_initial currentPage + maxPagesToShow - 1).

(** [startPage] after the conditional reassignment. *)
Definition startPage (currentPage totalPages : Z) : Z :=
  let startPage := startPage_initial currentPage in
  let endPage := endPage currentPage totalPages in
  if endPage - startPage + 1 <? maxPagesToShow
  then Z.max 1 (endPage - maxPagesToShow + 1)
  else startPage.

(** The loop [for (let i = startPage; i <= endPage; i++) pages.push(i)];
    the fuel bounds the number of rounds. *)
Fixpoint push_pages (fuel : nat) (i endPage : Z) (pages : list Z) : list Z :=
  match fuel with
  | O => pages
  | S fuel' =>
      if i <=? endPage then push_pages fuel' (i + 1) endPage (pages ++ [i])
      else pages
  end.

Definition pages (currentPage totalPages : Z) : list Z :=
  let startPage := startPage currentPage totalPages in
  let endPage := endPage currentPage totalPages in
  push_pages (Z.to_nat (endPage - startPage + 1)) startPage endPage [].

(** What the bar shows, left to right.  A button carries the page it asks
    for when clicked; a disabled button does not react. *)
Inductive Item : Type :=
| PrevButton (enabled : bool) (target : Z)
| PageButton (page : Z) (active : bool)
| Ellipsis
| NextButton (enabled : bool) (target : Z).

Definition render (currentPage totalPages : Z) (hasNext hasPrev : bool)
  : list Item :=
  let startPage := startPage currentPage totalPages in
  let endPage := endPage currentPage totalPages in
  [PrevButton hasPrev (currentPage - 1)]
  ++ (if 1 <? startPage
      then [PageButton 1 false]
           ++ (if 2 <? startPage then [Ellipsis] else [])
      else [])
  ++ ((fun page => PageButton page (page =? currentPage))
        <$> pages currentPage totalPages)
  ++ (if endPage <? totalPages
      then (if endPage <? totalPages - 1 then [Ellipsis] else [])
           ++ [PageButton totalPages false]
      else [])
  ++ [NextButton hasNext (currentPage + 1)].

(** The argument of [onPageChange] when the item is clicked, if it
    reacts. *)
Definition click (item : Item) : option Z :=
  match item with
  | PrevButton true target | NextButton true target => Some target
  | PrevButton false _ | NextButton false _ => None
  | PageButton page _ => Some page
  | Ellipsis => None
  end.

(** The numbered buttons of the bar, left to right. *)
Definition page_buttons (items : list Item) : list Z :=
  omap (fun item => match item with
                    | PageButton page _ => Some page
                    | _ => None
                    end) items.

(** The numbered buttons shown as the current page. *)
Definition active_buttons (items : list Item) : list Z :=
  omap (fun item => match item with
                    | PageButton page true => Some page
                    | _ => None
                    end) items.

End Paginator.

(** ** The books page *)

Module BooksPage.
Import Js JsText.

(** A row as the page receives it. *)
Record Book : Type := {
  book_id : string;
  title : string;
  description : option string;
  isbn : option string;
  publishedYear : option Z;
  genre : option string;
  pages : option Z;
  author : Search.Author;
}.

(** The pagination block as the page holds it, on integers. *)
Record PaginationInfo : Type := {
  page : Z;
  limit : Z;
  total : Z;
  totalPages : Z;
  hasNext : bool;
  hasPrev : bool;
}.

(** The same block as numbers of the response. *)
Definition as_response (pg : PaginationInfo) : Search.PaginationInfo :=
  {| Search.pg_page := of_Z (page pg);
     Search.pg_limit := of_Z (limit pg);
     Search.pg_total := of_Z (total pg);
     Search.pg_totalPages := of_Z (totalPages pg);
     Search.pg_hasNext := hasNext pg;
     Search.pg_hasPrev := hasPrev pg |}.

(** The filter state of the page. *)
Record Filters : Type := {
  searchTerm : string;
  selectedGenre : string;
  selectedAuthor : string;
  sortBy : string;
  order : string;
  currentPage : Z;
}.

(** The state of the page: the filters, and the books, genre options and
    pagination block of the last response. *)
Record State : Type := {
  filters : Filters;
  books : list Book;
  genres : list (option string);
  pagination : option PaginationInfo;
}.

Definition initial : State :=
  {| filters :=
       {| searchTerm := ""; selectedGenre := ""; selectedAuthor := "";
          sortBy := "createdAt"; order := "desc"; currentPage := 1 |};
     books := []; genres := []; pagination := None |}.

(** [params.append(name, value)] *)
Definition append (params : Search.URLSearchParams) (name value : string)
  : Search.URLSearchParams :=
  params ++ [(name, value)].

(** The query of [fetchBooks].  The pairs reach the handler as they are:
    the query string is written by [params.toString()] and read back by
    the handler's [URL]. *)
Definition fetchBooks_params (f : Filters) : Search.URLSearchParams :=
  let params := [] in
  let params :=
    if truthy (searchTerm f) then append params "search" (searchTerm f)
    else params in
  let params :=
    if truthy (selectedGenre f) then append params "genre" (selectedGenre f)
    else params in
  let params :=
    if truthy (selectedAuthor f)
    then append params "authorName" (selectedAuthor f)
    else params in
  let params := append params "page" (toString (currentPage f)) in
  let params := append params "limit" "9" in
  let params := append params "sortBy" (sortBy f) in
  let params := append params "order" (order f) in
  params.

(** [uniqueGenres]: the options of the genre selector. *)
Definition uniqueGenres (data : list Book) : list (option string) :=
  Stats.sort
    (Stats.Set_from (genre <$> filter (fun b => truthy_opt (genre b)) data)).

(** The options of the sort selector. *)
Inductive SortOption : Type :=
| ByCreatedAt
| ByTitle
| ByPublishedYear.

Definition option_value (o : SortOption) : string :=
  match o with
  | ByCreatedAt => "createdAt"
  | ByTitle => "title"
  | ByPublishedYear => "publishedYear"
  end.

(** What the user does to the filters, and the click on the pagination
    bar. *)
Inductive Event : Type :=
| TypeSearch (value : string)
| SelectGenre (value : string)
| TypeAuthor (value : string)
| SelectSort (o : SortOption)
| ToggleOrder
| PageChange (page : Z)
| ClearFilters.

(** The handlers of the filter controls, [handlePageChange] and
    [clearFilters]. *)
Definition handle (f : Filters) (e : Event) : Filters :=
  match e with
  | TypeSearch value =>
      {| searchTerm := value; selectedGenre := selectedGenre f;
         selectedAuthor := selectedAuthor f; sortBy := sortBy f;
         order := order f; currentPage := 1 |}
  | SelectGenre value =>
      {| searchTerm := searchTerm f; selectedGenre := value;
         selectedAuthor := selectedAuthor f; sortBy := sortBy f;
         order := order f; currentPage := 1 |}
  | TypeAuthor value =>
      {| searchTerm := searchTerm f; selectedGenre := selectedGenre f;
         selectedAuthor := value; sortBy := sortBy f;
         order := order f; currentPage := 1 |}
  | SelectSort o =>
      {| searchTerm := searchTerm f; selectedGenre := selectedGenre f;
         selectedAuthor := selectedAuthor f; sortBy := option_value o;
         order := order f; currentPage := currentPage f |}
  | ToggleOrder =>
      {| searchTerm := searchTerm f; selectedGenre := selectedGenre f;
         selectedAuthor := selectedAuthor f; sortBy := sortBy f;
         order := if String.eqb (order f) "asc" then "desc" else "asc";
         currentPage := currentPage f |}
  | PageChange page =>
      {| searchTerm := searchTerm f; selectedGenre := selectedGenre f;
         selectedAuthor := selectedAuthor f; sortBy := sortBy f;
         order := order f; currentPage := page |}
  | ClearFilters =>
      {| searchTerm := ""; selectedGenre := ""; selectedAuthor := "";
         sortBy := "createdAt"; order := "desc"; currentPage := 1 |}
  end.

(** The state after an event on the filters. *)
Definition after_event (st : State) (e : Event) : State :=
  {| filters := handle (filters st) e; books := books st;
     genres := genres st; pagination := pagination st |}.

(** The state after a response with rows [data] and pagination block
    [pg]: [setBooks], [setPagination] and [setGenres]. *)
Definition after_response (st : State) (data : list Book)
  (pg : PaginationInfo) : State :=
  {| filters := filters st; books := data;
     genres := uniqueGenres data; pagination := Some pg |}.

(** The pagination bar of the page: shown under a non-empty list of
    books when there is a pagination block with more than one page. *)
Definition bar (st : State) : list Paginator.Item :=
  match books st, pagination st with
  | _ :: _, Some pg =>
      if 1 <? totalPages pg
      then Paginator.render (page pg) (totalPages pg) (hasNext pg) (hasPrev pg)
      else []
  | _, _ => []
  end.

(** An event the page can receive in a state: a genre comes from the
    options of the selector, a page change from a click on an item of
    the bar. *)
Definition offered (st : State) (e : Event) : Prop :=
  match e with
  | SelectGenre value => value = ""%string \/ Some value ∈ genres st
  | PageChange page =>
      exists item, item ∈ bar st /\ Paginator.click item = Some page
  | _ => True
  end.

(** The states of the page while it works.  A response carries rows and
    the pagination block the handler derives, for some count of rows,
    from the query of filters the page has had; it may arrive after the
    filters have moved on.  (A response without rows, as after a failure
    of the handler, leaves the page without a list to show.) *)
Inductive reachable : State -> Prop :=
| reach_initial : reachable initial
| reach_event (st : State) (e : Event) :
    reachable st -> offered st e -> reachable (after_event st e)
| reach_response (st asked : State) (total : Z) (data : list Book)
    (pg : PaginationInfo) :
    reachable st -> reachable asked -> 0 <= total ->
    Search.pagination (fetchBooks_params (filters asked)) total
    = as_response pg ->
    reachable (after_response st data pg).

(** What holds of every state the page can be in: the current page is at
    least 1, the order and the sort field are among the values the
    handler accepts, and the pagination block held is one the handler
    computes for a page that is at least 1. *)
Definition well_formed (st : State) : Prop :=
  1 <= currentPage (filters st)
  /\ (order (filters st) = "asc" \/ order (filters st) = "desc")%string
  /\ (sortBy (filters st) = "title" \/ sortBy (filters st) = "publishedYear"
      \/ sortBy (filters st) = "createdAt")%string
  /\ forall pg, pagination st = Some pg ->
       1 <= page pg
       /\ hasPrev pg = (1 <? page pg)
       /\ hasNext pg = (page pg <? totalPages pg).

(** *** The book form *)

Record FormData : Type := {
  form_title : string;
  form_description : string;
  form_isbn : string;
  form_publishedYear : string;
  form_genre : string;
  form_pages : string;
  form_authorId : string;
}.

(** [handleOpenModal(book)] *)
Definition handleOpenModal (book : option Book) : FormData :=
  match book with
  | Some book =>
      {| form_title := title book;
         form_description := or_empty (description book);
         form_isbn := or_empty (isbn book);
         form_publishedYear := toString_or_empty (publishedYear book);
         form_genre := or_empty (genre book);
         form_pages := toString_or_empty (pages book);
         form_authorId := Search.author_id (author book) |}
  | None =>
      {| form_title := ""; form_description := ""; form_isbn := "";
         form_publishedYear := ""; form_genre := ""; form_pages := "";
         form_authorId := "" |}
  end.

(** The object [handleSubmit] serialises as the request body. *)
Record Payload : Type := {
  body_title : string;
  body_description : string;
  body_isbn : string;
  body_publishedYear : option number;
  body_genre : string;
  body_pages : option number;
  body_authorId : string;
}.

Definition handleSubmit_body (formData : FormData) : Payload :=
  {| body_title := form_title formData;
     body_description := form_description formData;
     body_isbn := form_isbn formData;
     body_publishedYear := parseInt_or_null (form_publishedYear formData);
     body_genre := form_genre formData;
     body_pages := parseInt_or_null (form_pages formData);
     body_authorId := form_authorId formData |}.

End BooksPage.

(** ** The author pages *)

Module AuthorPages.
Import Js JsText.

Record Author : Type := {
  author_id : string;
  name : string;
  email : string;
  bio : option string;
  nationality : option string;
  birthYear : option Z;
}.

Record FormData : Type := {
  form_name : string;
  form_email : string;
  form_bio : string;
  form_nationality : string;
  form_birthYear : string;
}.

(** The author form: [handleOpenModal(author)] of the home page, blank
    for a new author; [handleOpenEditModal] of the author page fills it
    the same way from the author shown. *)
Definition handleOpenModal (author : option Author) : FormData :=
  match author with
  | Some author =>
      {| form_name := name author;
         form_email := email author;
         form_bio := or_empty (bio author);
         form_nationality := or_empty (nationality author);
         form_birthYear := toString_or_empty (birthYear author) |}
  | None =>
      {| form_name := ""; form_email := ""; form_bio := "";
         form_nationality := ""; form_birthYear := "" |}
  end.

Record Payload : Type := {
  body_name : string;
  body_email : string;
  body_bio : string;
  body_nationality : string;
  body_birthYear : option number;
}.

(** The request body of [handleSubmit] and [handleUpdateAuthor]. *)
Definition handleSubmit_body (formData : FormData) : Payload :=
  {| body_name := form_name formData;
     body_email := form_email formData;
     body_bio := form_bio formData;
     body_nationality := form_nationality formData;
     body_birthYear := parseInt_or_null (form_birthYear formData) |}.

(** [ToNumber] of a number-or-null operand: null counts as 0. *)
Definition ToNumber (n : option Z) : Z :=
  match n with
  | Some n => n
  | None => 0
  end.

(** The "years active" tile of the statistics panel: a number when both
    book references are there, a dash otherwise. *)
Definition yearsActive (stats : Stats.AuthorStats) : option Z :=
  match Stats.stats_firstBook stats, Stats.stats_latestBook stats with
  | Some firstBook, Some latestBook =>
      Some (ToNumber (Stats.year latestBook) - ToNumber (Stats.year firstBook) + 1)
  | _, _ => None
  end.

(** The statistics panel is shown for a payload with at least one
    book. *)
Definition showsPanel (stats : option Stats.AuthorStats) : bool :=
  match stats with
  | Some stats => 0 <? Stats.totalBooks stats
  | None => false
  end.

End AuthorPages.

(** ** Arithmetic of the host language on integers *)

Module JsFacts.
Import Js.

Lemma Qred_inject_Z (z : Z) : Qred (inject_Z z) = inject_Z z.
Proof.
  unfold Qred, inject_Z.
  pose proof (Z.ggcd_gcd z 1) as Hg.
  pose proof (Z.ggcd_correct_divisors z 1) as Hd.
  destruct (Z.ggcd z 1) as [g [a b]]; simpl in *.
  rewrite Z.gcd_1_r in Hg. subst g.
  destruct Hd as [Ha Hb].
  replace a with z by lia. replace b with 1 by lia. reflexivity.
Qed.

Lemma Qred_integral (q : Q) (z : Z) : (q == inject_Z z)%Q -> Qred q = inject_Z z.
Proof.
  intros H. rewrite (Qred_complete _ _ H). apply Qred_inject_Z.
Qed.

Lemma neg_of_Z (a : Z) : neg (of_Z a) = of_Z (- a).
Proof.
  unfold neg, of_Z. f_equal. apply Qred_integral.
  unfold inject_Z, Qopp, Qeq; simpl. lia.
Qed.

Lemma add_of_Z (a b : Z) : add (of_Z a) (of_Z b) = of_Z (a + b).
Proof.
  unfold add, of_Z. f_equal. apply Qred_integral.
  rewrite inject_Z_plus. reflexivity.
Qed.

Lemma sub_of_Z (a b : Z) : sub (of_Z a) (of_Z b) = of_Z (a - b).
Proof.
  unfold sub. rewrite neg_of_Z, add_of_Z. reflexivity.
Qed.

Lemma mul_of_Z (a b : Z) : mul (of_Z a) (of_Z b) = of_Z (a * b).
Proof.
  unfold mul, of_Z. f_equal. apply Qred_integral.
  rewrite inject_Z_mult. reflexivity.
Qed.

Lemma lt_of_Z (a b : Z) : lt (of_Z a) (of_Z b) = (a <? b).
Proof.
  unfold lt, of_Z.
  destruct (Z.ltb_spec a b) as [H | H].
  - apply negb_true_iff. apply not_true_is_false. intros Hle.
    apply Qle_bool_iff in Hle. rewrite <- Zle_Qle in Hle. lia.
  - apply negb_false_iff. apply Qle_bool_iff. rewrite <- Zle_Qle. exact H.
Qed.

Lemma gt_of_Z (a b : Z) : gt (of_Z a) (of_Z b) = (b <? a).
Proof. apply lt_of_Z. Qed.

Lemma Math_min_of_Z (a b : Z) : Math_min (of_Z a) (of_Z b) = of_Z (Z.min a b).
Proof.
  unfold Math_min. change (Fin (inject_Z a)) with (of_Z a).
  change (Fin (inject_Z b)) with (of_Z b). rewrite lt_of_Z.
  unfold of_Z at 1.
  destruct (Z.ltb_spec b a); f_equal; f_equal; lia.
Qed.

Lemma of_Z_inj (a b : Z) : of_Z a = of_Z b -> a = b.
Proof. unfold of_Z, inject_Z. intros H. congruence. Qed.

(** Division by a positive integer followed by [Math.ceil]. *)
Lemma ceil_div_of_Z (a b : Z) :
  0 < b -> Math_ceil (div (of_Z a) (of_Z b)) = of_Z (- ((- a) / b)).
Proof.
  intros Hb. unfold div, of_Z, Qsign. simpl Qnum.
  destruct (Z.compare_spec b 0) as [H | H | H]; try lia.
  unfold Math_ceil, of_Z. f_equal. f_equal.
  rewrite (Qceiling_comp _ _ (Qred_correct _)).
  unfold Qceiling. f_equal.
  rewrite Zdiv_Qdiv. apply Qfloor_comp.
  rewrite inject_Z_opp. field.
  intros H0. apply (inject_Z_injective b 0) in H0. lia.
Qed.

(** Division by a positive integer followed by [Math.round]. *)
Lemma round_div_of_Z (a b : Z) :
  0 < b -> Math_round (div (of_Z a) (of_Z b)) = of_Z ((2 * a + b) / (2 * b)).
Proof.
  intros Hb. unfold div, of_Z, Qsign. simpl Qnum.
  destruct (Z.compare_spec b 0) as [H | H | H]; try lia.
  unfold Math_round, of_Z, round_half_up. f_equal. f_equal.
  rewrite Zdiv_Qdiv. apply Qfloor_comp.
  rewrite (Qred_correct _).
  rewrite inject_Z_plus, !inject_Z_mult. field.
  intros H0. apply (inject_Z_injective b 0) in H0. lia.
Qed.

(** The ceiling of a quotient, told by multiplication alone. *)
Lemma ceil_quotient_bounds (a b : Z) :
  0 < b -> (- ((- a) / b) - 1) * b < a <= - ((- a) / b) * b.
Proof.
  intros Hb.
  pose proof (Z.div_mod (- a) b ltac:(lia)) as Hdm.
  pose proof (Z.mod_pos_bound (- a) b Hb) as Hm.
  nia.
Qed.

Lemma parseInt_cases (s : string) : parseInt s = NaN \/ exists z, parseInt s = of_Z z.
Proof.
  unfold parseInt.
  destruct (match trim_start s with
            | String "-" r => (true, r)
            | String "+" r => (false, r)
            | _ => (false, trim_start s)
            end) as [negative s1].
  destruct (match s1 with
            | String "0" (String "x" r) | String "0" (String "X" r) => (16, r)
            | _ => (10, s1)
            end) as [radix s2].
  destruct (read_digits radix None s2); [right; eauto | left; reflexivity].
Qed.

End JsFacts.

(** ** Properties of the book search handler *)

Module SearchSpec.
Import Js Search JsFacts.

Local Open Scope string_scope.
Local Open Scope Z_scope.

(** *** Query parameters *)

Lemma or_else_spec (s : option string) (d : string) :
  or_else s d = match s with
                | Some v => if decide (v = "") then d else v
                | None => d
                end.
Proof. destruct s as [[|c r]|]; reflexivity. Qed.

Lemma truthy_or_else_empty (s : option string) :
  truthy (or_else s "") = true <-> exists v, s = Some v /\ v <> "".
Proof.
  destruct s as [[|c r]|]; simpl; split; try discriminate.
  - intros (v & Hv & Hne). congruence.
  - intros _. exists (String c r). split; [reflexivity | discriminate].
  - reflexivity.
  - intros (v & Hv & _). discriminate.
Qed.

Lemma includes_elem_of (l : list string) (x : string) :
  includes l x = true <-> x ∈ l.
Proof.
  unfold includes. rewrite existsb_exists, list_elem_of_In. split.
  - intros (y & Hy & Heq). apply String.eqb_eq in Heq. subst. exact Hy.
  - intros Hx. exists x. split; [exact Hx | apply String.eqb_refl].
Qed.

(** *** Substring containment *)

Lemma append_cons (a : ascii) (s t : string) :
  String a s +:+ t = String a (s +:+ t).
Proof. reflexivity. Qed.

Lemma prefix_append (s1 s2 : string) :
  String.prefix s1 s2 = true <-> exists post, s2 = s1 +:+ post.
Proof.
  revert s2. induction s1 as [|a s1 IH]; intros s2; simpl.
  - split; [intros _; exists s2; reflexivity | intros _; destruct s2; reflexivity].
  - destruct s2 as [|b s2]; simpl.
    + split; [discriminate | intros (post & H); discriminate].
    + destruct (Ascii.ascii_dec a b) as [-> | Hne].
      * rewrite IH.
        split; intros (post & H); exists post; rewrite append_cons in *; congruence.
      * split; [discriminate | intros (post & H)].
        rewrite append_cons in H. congruence.
Qed.

Lemma occurs_in_cons (needle : string) (c : ascii) (hay : string) :
  occurs_in needle (String c hay)
  = String.prefix needle (String c hay) || occurs_in needle hay.
Proof. reflexivity. Qed.

Lemma occurs_in_spec (needle hay : string) :
  occurs_in needle hay = true <-> exists pre post, hay = pre +:+ needle +:+ post.
Proof.
  induction hay as [|c hay IH].
  - change (occurs_in needle "") with (String.prefix needle "" || false).
    rewrite orb_false_r, prefix_append. split.
    + intros (post & H). exists "", post. exact H.
    + intros (pre & post & H). destruct pre; [exists post; exact H | discriminate].
  - rewrite occurs_in_cons, orb_true_iff, IH, prefix_append. split.
    + intros [(post & H) | (pre & post & H)].
      * exists "", post. exact H.
      * exists (String c pre), post. rewrite append_cons. congruence.
    + intros (pre & post & H). destruct pre as [|c' pre].
      * left. exists post. exact H.
      * right. exists pre, post. rewrite append_cons in H. congruence.
Qed.

(** A filter parameter either is given (present and not empty) or
    contributes nothing. *)
Lemma param_cases (o : option string) :
  (truthy (or_else o "") = true /\ o = Some (or_else o "") /\ or_else o "" <> "")
  \/ (truthy (or_else o "") = false /\ forall v, o = Some v -> v = "").
Proof.
  destruct o as [[|c r]|]; simpl.
  - right. split; [reflexivity | congruence].
  - left. repeat split; discriminate.
  - right. split; [reflexivity | discriminate].
Qed.

Lemma where_title_eq (sp : URLSearchParams) :
  where_title (where_ sp)
  = if truthy (search sp)
    then Some {| contains := search sp; mode := "insensitive" |} else None.
Proof.
  unfold where_.
  destruct (truthy (search sp)), (truthy (genre sp)), (truthy (authorName sp));
    reflexivity.
Qed.

Lemma where_genre_eq (sp : URLSearchParams) :
  where_genre (where_ sp) = if truthy (genre sp) then Some (genre sp) else None.
Proof.
  unfold where_.
  destruct (truthy (search sp)), (truthy (genre sp)), (truthy (authorName sp));
    reflexivity.
Qed.

Lemma where_author_eq (sp : URLSearchParams) :
  where_author (where_ sp)
  = if truthy (authorName sp)
    then Some {| name := {| contains := authorName sp; mode := "insensitive" |} |}
    else None.
Proof.
  unfold where_.
  destruct (truthy (search sp)), (truthy (genre sp)), (truthy (authorName sp));
    reflexivity.
Qed.

Lemma holds_insensitive (s t : string) :
  holds_string {| contains := s; mode := "insensitive" |} t = true
  <-> contains_insensitive s t.
Proof. unfold holds_string; simpl. apply occurs_in_spec. Qed.

Lemma GET_returns (count : Where -> outcome Z)
  (findMany : FindManyArgs -> outcome (list Book))
  (sp : URLSearchParams) (total : Z) (books : list Book) :
  count (where_ sp) = Returns total ->
  findMany (findManyArgs sp) = Returns books ->
  GET count findMany sp
  = {| status := 200; body := SearchResult books (pagination sp total) |}.
Proof.
  intros Hc Hf. unfold GET. rewrite Hc. simpl. rewrite Hf. reflexivity.
Qed.

(** *** Pagination *)

(** C1. When the count of matching rows is non-negative, the effective
    page is an integer p >= 1 and the effective limit an integer l in
    [1,50], the pagination block carries p, l and the count, its
    totalPages is the ceiling of total/l (the one integer t with
    (t-1)*l < total <= t*l, zero exactly when the count is zero), hasNext
    is p < totalPages and hasPrev is p > 1; it is the block of the 200
    response whenever both store calls return. *)
Theorem pagination_info
  (count : Where -> outcome Z) (findMany : FindManyArgs -> outcome (list Book))
  (sp : URLSearchParams) (total p l : Z) (books : list Book) :
  0 <= total ->
  page sp = of_Z p -> 1 <= p ->
  limit sp = of_Z l -> 1 <= l <= 50 ->
  exists totalPages : Z,
    pagination sp total
    = {| pg_page := of_Z p; pg_limit := of_Z l; pg_total := of_Z total;
         pg_totalPages := of_Z totalPages;
         pg_hasNext := (p <? totalPages); pg_hasPrev := (1 <? p) |}
    /\ (totalPages - 1) * l < total <= totalPages * l
    /\ (totalPages = 0 <-> total = 0)
    /\ (count (where_ sp) = Returns total ->
        findMany (findManyArgs sp) = Returns books ->
        GET count findMany sp
        = {| status := 200; body := SearchResult books (pagination sp total) |}).
Proof.
  intros Htotal Hpage Hp Hlimit Hl.
  exists (- ((- total) / l)).
  pose proof (ceil_quotient_bounds total l ltac:(lia)) as Hb.
  split; [| split; [exact Hb | split]].
  - unfold pagination. rewrite Hpage, Hlimit.
    rewrite ceil_div_of_Z by lia. rewrite lt_of_Z, gt_of_Z. reflexivity.
  - split; intros H0; nia.
  - apply GET_returns.
Qed.

Lemma pagination_info_witness :
  exists totalPages : Z,
    pagination [("page", "3"); ("limit", "7")] 95
    = {| pg_page := of_Z 3; pg_limit := of_Z 7; pg_total := of_Z 95;
         pg_totalPages := of_Z totalPages;
         pg_hasNext := (3 <? totalPages); pg_hasPrev := (1 <? 3) |}
    /\ (totalPages - 1) * 7 < 95 <= totalPages * 7
    /\ (totalPages = 0 <-> 95 = 0)
    /\ (Returns 95 = Returns 95 ->
        Returns (@nil Book) = Returns [] ->
        GET (fun _ => Returns 95) (fun _ => Returns [])
          [("page", "3"); ("limit", "7")]
        = {| status := 200;
             body := SearchResult []
                       (pagination [("page", "3"); ("limit", "7")] 95) |}).
Proof.
  apply (pagination_info (fun _ => Returns 95) (fun _ => Returns [])
           [("page", "3"); ("limit", "7")] 95 3 7 []).
  - lia.
  - reflexivity.
  - lia.
  - reflexivity.
  - lia.
Defined.

(** *** Clamping of the page size *)

Example limit_negative_passes_through : limit [("limit", "-5")] = of_Z (-5).
Proof. reflexivity. Qed.

Example limit_not_numeric_is_NaN : limit [("limit", "abc")] = NaN.
Proof. reflexivity. Qed.

Example page_zero_negative_offset :
  page [("page", "0")] = of_Z 0 /\ skip [("page", "0")] = of_Z (-10).
Proof. split; reflexivity. Qed.

(** C2 does not hold as stated: a request with [limit=0] has the
    effective limit 0, which is not in [1,50]. *)
Lemma limit_zero_not_in_range :
  ~ (exists l : Z, limit [("limit", "0")] = of_Z l /\ 1 <= l <= 50).
Proof.
  intros (l & Hl & Hrange).
  change (limit [("limit", "0")]) with (of_Z 0) in Hl.
  apply of_Z_inj in Hl. lia.
Qed.

(** C2, amended.  The effective limit is NaN or an integer at most 50,
    and a request with [limit=1000] has pagination.limit = 50.  When the
    page and limit parameters (or their defaults 1 and 10) parse to
    integers p >= 1 and n >= 1, the effective page is p, the effective
    limit is min(n, 50), which lies in [1,50], and the offset is
    (p - 1) * limit, which is not negative. *)
Theorem effective_limit_and_page (sp : URLSearchParams) :
  (limit sp = NaN \/ exists l : Z, limit sp = of_Z l /\ l <= 50)
  /\ (get "limit" sp = Some "1000" ->
      forall total, pg_limit (pagination sp total) = of_Z 50)
  /\ (forall p n : Z,
        parseInt (or_else (get "page" sp) "1") = of_Z p ->
        parseInt (or_else (get "limit" sp) "10") = of_Z n ->
        1 <= p -> 1 <= n ->
        exists l : Z,
          page sp = of_Z p /\ limit sp = of_Z l /\ l = Z.min n 50
          /\ 1 <= l <= 50
          /\ skip sp = of_Z ((p - 1) * l) /\ 0 <= (p - 1) * l).
Proof.
  split; [| split].
  - unfold limit.
    destruct (parseInt_cases (or_else (get "limit" sp) "10")) as [-> | (z & ->)].
    + left. reflexivity.
    + right. exists (Z.min z 50). split; [apply Math_min_of_Z | lia].
  - intros H1000 total. unfold pagination, limit; simpl.
    rewrite H1000. reflexivity.
  - intros p n Hp Hn Hp1 Hn1. exists (Z.min n 50).
    assert (Hlimit : limit sp = of_Z (Z.min n 50)).
    { unfold limit. rewrite Hn. apply Math_min_of_Z. }
    repeat split; try lia.
    + exact Hp.
    + exact Hlimit.
    + unfold skip. rewrite Hlimit. unfold page. rewrite Hp.
      rewrite sub_of_Z, mul_of_Z. reflexivity.
    + nia.
Qed.

Lemma effective_limit_and_page_witness :
  (forall total, pg_limit (pagination [("limit", "1000"); ("page", "2")] total)
                 = of_Z 50)
  /\ exists l : Z,
       page [("limit", "1000"); ("page", "2")] = of_Z 2
       /\ limit [("limit", "1000"); ("page", "2")] = of_Z l
       /\ l = Z.min 1000 50
       /\ 1 <= l <= 50
       /\ skip [("limit", "1000"); ("page", "2")] = of_Z ((2 - 1) * l)
       /\ 0 <= (2 - 1) * l.
Proof.
  split.
  - apply (proj1 (proj2 (effective_limit_and_page
                           [("limit", "1000"); ("page", "2")]))).
    reflexivity.
  - apply (proj2 (proj2 (effective_limit_and_page
                           [("limit", "1000"); ("page", "2")])) 2 1000).
    + reflexivity.
    + reflexivity.
    + lia.
    + lia.
Defined.

(** *** Filter conditions *)

Lemma given_condition {A} (o : option string) (mk : string -> A)
  (test : A -> bool) (P : string -> Prop) :
  (forall s, test (mk s) = true <-> P s) ->
  holds_opt (if truthy (or_else o "") then Some (mk (or_else o "")) else None) test
  = true
  <-> (forall s, o = Some s -> s <> "" -> P s).
Proof.
  intros Htest.
  destruct (param_cases o) as [(Ht & Hget & Hne) | (Hf & Hall)].
  - rewrite Ht. simpl. rewrite Htest. split.
    + intros HP s Hs _.
      assert (Heq : s = or_else o "") by congruence.
      rewrite Heq. exact HP.
    + intros H. apply H; assumption.
  - rewrite Hf. simpl. split; [| reflexivity].
    intros _ s Hs Hne. exfalso. apply Hne, Hall, Hs.
Qed.

(** C3. A row satisfies the filter object of a request exactly when it
    meets every condition whose parameter is present and not empty:
    containment of the search term in the title and of authorName in the
    owning author's name, both up to letter case, and equality of the
    genre.  A parameter that is absent or empty leaves its key out of the
    filter object; a given one puts exactly its condition there. *)
Theorem where_is_conjunction (sp : URLSearchParams) (b : Book) :
  let given := fun (name v : string) => get name sp = Some v /\ v <> "" in
  (satisfies (where_ sp) b = true <->
     (forall s, given "search" s -> contains_insensitive s (book_title b))
     /\ (forall g, given "genre" g -> book_genre b = Some g)
     /\ (forall a, given "authorName" a ->
           contains_insensitive a (author_name (book_author b))))
  /\ (forall s, given "search" s ->
        where_title (where_ sp)
        = Some {| contains := s; mode := "insensitive" |})
  /\ (forall g, given "genre" g -> where_genre (where_ sp) = Some g)
  /\ (forall a, given "authorName" a ->
        where_author (where_ sp)
        = Some {| name := {| contains := a; mode := "insensitive" |} |})
  /\ ((forall s, ~ given "search" s) -> where_title (where_ sp) = None)
  /\ ((forall g, ~ given "genre" g) -> where_genre (where_ sp) = None)
  /\ ((forall a, ~ given "authorName" a) -> where_author (where_ sp) = None).
Proof.
  intros given. unfold given.
  split; [| repeat split].
  - unfold satisfies. rewrite !andb_true_iff.
    rewrite where_title_eq, where_genre_eq, where_author_eq.
    unfold search, genre, authorName.
    rewrite (given_condition (get "search" sp)
               (fun s => {| contains := s; mode := "insensitive" |})
               (fun f => holds_string f (book_title b))
               (fun s => contains_insensitive s (book_title b)))
      by (intros s; apply holds_insensitive).
    rewrite (given_condition (get "genre" sp) (fun g => g)
               (fun g => match book_genre b with
                         | Some g' => String.eqb g' g
                         | None => false
                         end)
               (fun g => book_genre b = Some g)).
    2:{ intros g. destruct (book_genre b) as [g'|].
        - rewrite String.eqb_eq. split; congruence.
        - split; discriminate. }
    rewrite (given_condition (get "authorName" sp)
               (fun a => {| name := {| contains := a; mode := "insensitive" |} |})
               (fun a => holds_string (name a) (author_name (book_author b)))
               (fun a => contains_insensitive a (author_name (book_author b))))
      by (intros a; apply holds_insensitive).
    split.
    + intros [[H1 H2] H3]. repeat split; intros v [Hv Hne]; eauto.
    + intros (H1 & H2 & H3). repeat split; intros v Hv Hne; eauto.
  - intros s [Hs Hne]. rewrite where_title_eq. unfold search. rewrite Hs.
    destruct s; [congruence | reflexivity].
  - intros g [Hg Hne]. rewrite where_genre_eq. unfold genre. rewrite Hg.
    destruct g; [congruence | reflexivity].
  - intros a [Ha Hne]. rewrite where_author_eq. unfold authorName. rewrite Ha.
    destruct a; [congruence | reflexivity].
  - intros Hnone. rewrite where_title_eq. unfold search.
    destruct (param_cases (get "search" sp)) as [(_ & Hget & Hne) | (-> & _)];
      [exfalso; eapply Hnone; eauto | reflexivity].
  - intros Hnone. rewrite where_genre_eq. unfold genre.
    destruct (param_cases (get "genre" sp)) as [(_ & Hget & Hne) | (-> & _)];
      [exfalso; eapply Hnone; eauto | reflexivity].
  - intros Hnone. rewrite where_author_eq. unfold authorName.
    destruct (param_cases (get "authorName" sp)) as [(_ & Hget & Hne) | (-> & _)];
      [exfalso; eapply Hnone; eauto | reflexivity].
Qed.

(** *** Sorting *)

Example sortBy_invalidField :
  sortField [("sortBy", "invalidField")] = "createdAt"
  /\ sortOrder [("order", "ASC")] = "desc".
Proof. split; reflexivity. Qed.

Lemma GET_status_500 (count : Where -> outcome Z)
  (findMany : FindManyArgs -> outcome (list Book)) (sp : URLSearchParams) :
  status (GET count findMany sp) = 500 ->
  count (where_ sp) = Throws \/ findMany (findManyArgs sp) = Throws.
Proof.
  unfold GET. destruct (count (where_ sp)) as [total|]; simpl.
  - destruct (findMany (findManyArgs sp)) as [books|]; simpl.
    + discriminate.
    + right. reflexivity.
  - left. reflexivity.
Qed.

(** C4. The effective sort field is the requested sortBy when that is one
    of title, publishedYear, createdAt, and createdAt otherwise; the
    effective order is the requested order when that is asc or desc, and
    desc otherwise.  The pair handed to the store is made of these two,
    the handler answers 500 only when a store call throws, and two
    requests that differ in sortBy and order alone and have the same
    effective field and order get the same response. *)
Theorem sort_is_normalised
  (count : Where -> outcome Z) (findMany : FindManyArgs -> outcome (list Book))
  (sp : URLSearchParams) :
  sortField sp
  = match get "sortBy" sp with
    | Some s =>
        if decide (s = "title" \/ s = "publishedYear" \/ s = "createdAt")
        then s else "createdAt"
    | None => "createdAt"
    end
  /\ sortOrder sp
     = match get "order" sp with
       | Some o => if decide (o = "asc" \/ o = "desc") then o else "desc"
       | None => "desc"
       end
  /\ arg_orderBy (findManyArgs sp) = (sortField sp, sortOrder sp)
  /\ (status (GET count findMany sp) = 500 ->
      count (where_ sp) = Throws \/ findMany (findManyArgs sp) = Throws)
  /\ (forall sp' : URLSearchParams,
        (forall k, k <> "sortBy" -> k <> "order" -> get k sp' = get k sp) ->
        sortField sp' = sortField sp -> sortOrder sp' = sortOrder sp ->
        GET count findMany sp' = GET count findMany sp).
Proof.
  split; [| split; [| split; [| split]]].
  - unfold sortField, sortBy. rewrite or_else_spec.
    destruct (get "sortBy" sp) as [s|]; [| reflexivity].
    destruct (decide (s = "")) as [-> | Hne]; [reflexivity |].
    destruct (includes validSortFields s) eqn:Hin.
    + apply includes_elem_of in Hin. unfold validSortFields in Hin.
      rewrite !elem_of_cons, elem_of_nil in Hin.
      destruct (decide _) as [_ | Hn]; [reflexivity | tauto].
    + destruct (decide _) as [Hy | _]; [| reflexivity].
      assert (Hin' : includes validSortFields s = true).
      { apply includes_elem_of. unfold validSortFields.
        rewrite !elem_of_cons. tauto. }
      congruence.
  - unfold sortOrder, order. rewrite or_else_spec.
    destruct (get "order" sp) as [o|]; [| reflexivity].
    destruct (decide (o = "")) as [-> | Hne]; [reflexivity |].
    destruct (String.eqb_spec o "asc") as [-> | Hasc]; [reflexivity |].
    destruct (decide _) as [[H | H] | _]; congruence.
  - reflexivity.
  - apply GET_status_500.
  - intros sp' Hsame Hfield Horder.
    assert (Hw : where_ sp' = where_ sp).
    { unfold where_, search, genre, authorName.
      rewrite !Hsame by discriminate. reflexivity. }
    assert (Hp : page sp' = page sp).
    { unfold page. rewrite Hsame by discriminate. reflexivity. }
    assert (Hl : limit sp' = limit sp).
    { unfold limit. rewrite Hsame by discriminate. reflexivity. }
    unfold GET, findManyArgs, pagination, skip.
    rewrite Hw, Hp, Hl, Hfield, Horder. reflexivity.
Qed.

End SearchSpec.

(** ** Properties of the author statistics handler *)

Module StatsSpec.
Import Js Stats JsFacts.

Local Open Scope string_scope.
Local Open Scope Z_scope.
Local Open Scope list_scope.

(** *** First and latest book *)

Lemma firstBook_eq (books : list Book) :
  firstBook books = Returns (bookYear <$> head (booksWithYear books)).
Proof.
  unfold firstBook. destruct (booksWithYear books) as [|b l].
  - reflexivity.
  - destruct (decide (0 < length (b :: l))%nat) as [_ | Hn];
      [reflexivity | simpl in Hn; lia].
Qed.

Lemma latestBook_eq (books : list Book) :
  latestBook books = Returns (bookYear <$> last (booksWithYear books)).
Proof.
  unfold latestBook. set (l := booksWithYear books).
  destruct (decide (0 < length l)%nat) as [Hpos | Hzero].
  - unfold at_index. rewrite Nat.sub_1_r, <- last_lookup.
    destruct (last l) as [b|] eqn:Hlast; [reflexivity |].
    apply last_None in Hlast. rewrite Hlast in Hpos. simpl in Hpos. lia.
  - destruct l; [reflexivity | simpl in Hzero; lia].
Qed.

Lemma elem_of_booksWithYear (books : list Book) (b : Book) :
  b ∈ booksWithYear books <-> b ∈ books /\ publishedYear b <> None.
Proof. unfold booksWithYear. rewrite list_elem_of_filter. tauto. Qed.

Lemma elem_of_booksWithPages (books : list Book) (b : Book) :
  b ∈ booksWithPages books <-> b ∈ books /\ pages b <> None.
Proof. unfold booksWithPages. rewrite list_elem_of_filter. tauto. Qed.

Lemma booksWithYear_nil (books : list Book) :
  booksWithYear books = [] <-> forall b, b ∈ books -> publishedYear b = None.
Proof.
  split.
  - intros Hnil b Hb. destruct (publishedYear b) as [y|] eqn:Hy; [| reflexivity].
    assert (Hin : b ∈ booksWithYear books).
    { apply elem_of_booksWithYear. split; [exact Hb | congruence]. }
    rewrite Hnil in Hin. apply elem_of_nil in Hin. contradiction.
  - intros Hall. destruct (booksWithYear books) as [|b l] eqn:Hl; [reflexivity |].
    assert (Hin : b ∈ booksWithYear books) by (rewrite Hl; apply list_elem_of_here).
    apply elem_of_booksWithYear in Hin. destruct Hin as [Hb Hy].
    exfalso. apply Hy, Hall, Hb.
Qed.

Lemma booksWithPages_nil (books : list Book) :
  booksWithPages books = [] <-> forall b, b ∈ books -> pages b = None.
Proof.
  split.
  - intros Hnil b Hb. destruct (pages b) as [y|] eqn:Hy; [| reflexivity].
    assert (Hin : b ∈ booksWithPages books).
    { apply elem_of_booksWithPages. split; [exact Hb | congruence]. }
    rewrite Hnil in Hin. apply elem_of_nil in Hin. contradiction.
  - intros Hall. destruct (booksWithPages books) as [|b l] eqn:Hl; [reflexivity |].
    assert (Hin : b ∈ booksWithPages books) by (rewrite Hl; apply list_elem_of_here).
    apply elem_of_booksWithPages in Hin. destruct Hin as [Hb Hy].
    exfalso. apply Hy, Hall, Hb.
Qed.

#[local] Instance year_le_trans : Transitive (fun a b => year_le a b = true).
Proof.
  intros a b c. unfold year_le.
  destruct (publishedYear a), (publishedYear b), (publishedYear c);
    try discriminate; try reflexivity.
  rewrite !Z.leb_le. lia.
Qed.

Lemma year_le_years (a b : Book) (x y : Z) :
  year_le a b = true -> publishedYear a = Some x -> publishedYear b = Some y ->
  x <= y.
Proof.
  unfold year_le. intros H Ha Hb. rewrite Ha, Hb in H. apply Z.leb_le. exact H.
Qed.

(** In a list by ascending year, the first book with a year has the
    least year. *)
Lemma first_has_least_year (books : list Book) (first : Book) :
  by_year_asc books -> head (booksWithYear books) = Some first ->
  exists y0, publishedYear first = Some y0 /\
    forall b y, b ∈ books -> publishedYear b = Some y -> y0 <= y.
Proof.
  intros Hsorted Hhead.
  assert (Hin : first ∈ booksWithYear books) by (eapply head_Some_elem_of; eauto).
  apply elem_of_booksWithYear in Hin. destruct Hin as [_ Hy].
  destruct (publishedYear first) as [y0|] eqn:Hy0; [| congruence].
  exists y0. split; [reflexivity |]. intros b y Hb Hby.
  apply head_filter_Some in Hhead. destruct Hhead as (l1 & l2 & Heq & Hnone).
  apply Sorted_StronglySorted in Hsorted; [| apply year_le_trans].
  rewrite Heq in Hsorted, Hb.
  apply elem_of_app in Hb. destruct Hb as [Hb | Hb].
  - rewrite Forall_forall in Hnone. exfalso. apply (Hnone b Hb). rewrite Hby. discriminate.
  - apply elem_of_cons in Hb. destruct Hb as [-> | Hb].
    { assert (y = y0) by congruence. lia. }
    apply StronglySorted_app_1_r in Hsorted.
    apply StronglySorted_inv in Hsorted. destruct Hsorted as [_ Hall].
    rewrite Forall_forall in Hall.
    eapply year_le_years; eauto.
Qed.

(** In a list by ascending year, the last book with a year has the
    greatest year. *)
Lemma latest_has_greatest_year (books : list Book) (latest : Book) :
  by_year_asc books -> last (booksWithYear books) = Some latest ->
  exists y1, publishedYear latest = Some y1 /\
    forall b y, b ∈ books -> publishedYear b = Some y -> y <= y1.
Proof.
  intros Hsorted Hlast.
  assert (Hin : latest ∈ booksWithYear books) by (eapply last_Some_elem_of; eauto).
  apply elem_of_booksWithYear in Hin. destruct Hin as [_ Hy].
  destruct (publishedYear latest) as [y1|] eqn:Hy1; [| congruence].
  exists y1. split; [reflexivity |]. intros b y Hb Hby.
  apply last_filter_Some in Hlast. destruct Hlast as (l1 & l2 & Heq & Hnone).
  apply Sorted_StronglySorted in Hsorted; [| apply year_le_trans].
  rewrite Heq in Hsorted, Hb.
  apply elem_of_app in Hb. destruct Hb as [Hb | Hb].
  - apply (year_le_years b latest y y1); [| exact Hby | exact Hy1].
    apply (StronglySorted_app_1_elem_of
             (fun a b => year_le a b = true) l1 (latest :: l2));
      [exact Hsorted | exact Hb | apply list_elem_of_here].
  - apply elem_of_cons in Hb. destruct Hb as [-> | Hb].
    + assert (y = y1) by congruence. lia.
    + rewrite Forall_forall in Hnone. exfalso. apply (Hnone b Hb). rewrite Hby. discriminate.
Qed.

(** *** Longest and shortest book *)

(** A left-to-right scan that replaces the incumbent only by a strictly
    greater key ends on the first element with the greatest key. *)
Lemma foldl_first_greatest {A} (key : A -> Z) (f : A -> A -> A) :
  (forall acc b, f acc b = if key b >? key acc then b else acc) ->
  forall (l : list A) (x : A),
    exists l1 l2,
      x :: l = l1 ++ foldl f x l :: l2
      /\ Forall (fun b => key b < key (foldl f x l)) l1
      /\ Forall (fun b => key b <= key (foldl f x l)) l2.
Proof.
  intros Hf l. induction l as [|y l IH] using rev_ind; intros x.
  - exists [], []. simpl. repeat split; constructor.
  - destruct (IH x) as (l1 & l2 & Heq & Hl1 & Hl2).
    rewrite foldl_snoc, Hf. set (m := foldl f x l) in *.
    destruct (Z.gtb_spec (key y) (key m)) as [Hgt | Hle].
    + exists (x :: l), []. split; [reflexivity |]. split; [| constructor].
      rewrite Heq. apply Forall_app. split; [| constructor].
      * eapply Forall_impl; [exact Hl1 |]. simpl. intros; lia.
      * exact Hgt.
      * eapply Forall_impl; [exact Hl2 |]. simpl. intros; lia.
    + exists l1, (l2 ++ [y]). split; [| split].
      * rewrite app_comm_cons, Heq, <- app_assoc. reflexivity.
      * exact Hl1.
      * apply Forall_app. split; [exact Hl2 |]. constructor; [lia | constructor].
Qed.

Lemma longestBook_eq (books : list Book) :
  longestBook books
  = Returns (match booksWithPages books with
             | x :: l => Some (foldl longer x l)
             | [] => None
             end).
Proof.
  unfold longestBook. destruct (booksWithPages books) as [|x l].
  - reflexivity.
  - destruct (decide (0 < length (x :: l))%nat) as [_ | Hn];
      [reflexivity | simpl in Hn; lia].
Qed.

Lemma shortestBook_eq (books : list Book) :
  shortestBook books
  = Returns (match booksWithPages books with
             | x :: l => Some (foldl shorter x l)
             | [] => None
             end).
Proof.
  unfold shortestBook. destruct (booksWithPages books) as [|x l].
  - reflexivity.
  - destruct (decide (0 < length (x :: l))%nat) as [_ | Hn];
      [reflexivity | simpl in Hn; lia].
Qed.

(** *** The whole payload *)

Lemma stats_fields (author : Author) (books : list Book) :
  exists first latest longest shortest,
    firstBook books = Returns first
    /\ latestBook books = Returns latest
    /\ longestBook books = Returns longest
    /\ shortestBook books = Returns shortest
    /\ stats author books
       = Returns {| authorId := author_id author;
                    authorName := author_name author;
                    totalBooks := Z.of_nat (length books);
                    stats_firstBook := first;
                    stats_latestBook := latest;
                    stats_averagePages := averagePages books;
                    stats_genres := genres books;
                    stats_longestBook := bookData longest;
                    stats_shortestBook := bookData shortest |}.
Proof.
  eexists _, _, _, _.
  split; [apply firstBook_eq |].
  split; [apply latestBook_eq |].
  split; [apply longestBook_eq |].
  split; [apply shortestBook_eq |].
  unfold stats. destruct (decide (length books = 0%nat)) as [Hlen | Hlen].
  - destruct books; [reflexivity | discriminate].
  - rewrite firstBook_eq, latestBook_eq, longestBook_eq, shortestBook_eq.
    reflexivity.
Qed.

(** C5. For a non-empty list of books by ascending year (books without
    a year last), firstBook and latestBook are taken from the books with
    a year alone, a sublist of the input in the input's order: firstBook
    is its first element and latestBook its last, so they carry the least
    and the greatest year; both are null when no book has a year.  The
    payload carries exactly these two. *)
Theorem first_and_latest_book (author : Author) (books : list Book) :
  books <> [] -> by_year_asc books ->
  let withYear := booksWithYear books in
  (forall b, b ∈ withYear <-> b ∈ books /\ publishedYear b <> None)
  /\ withYear `sublist_of` books
  /\ firstBook books = Returns (bookYear <$> head withYear)
  /\ latestBook books = Returns (bookYear <$> last withYear)
  /\ ((forall b, b ∈ books -> publishedYear b = None) ->
      firstBook books = Returns None /\ latestBook books = Returns None)
  /\ (forall first, head withYear = Some first ->
        exists y0, publishedYear first = Some y0 /\
          forall b y, b ∈ books -> publishedYear b = Some y -> y0 <= y)
  /\ (forall latest, last withYear = Some latest ->
        exists y1, publishedYear latest = Some y1 /\
          forall b y, b ∈ books -> publishedYear b = Some y -> y <= y1)
  /\ exists s, stats author books = Returns s
       /\ stats_firstBook s = bookYear <$> head withYear
       /\ stats_latestBook s = bookYear <$> last withYear.
Proof.
  intros Hne Hsorted withYear. unfold withYear.
  split; [apply elem_of_booksWithYear |].
  split; [apply sublist_filter |].
  split; [apply firstBook_eq |].
  split; [apply latestBook_eq |].
  split.
  { intros Hnone. apply booksWithYear_nil in Hnone.
    rewrite firstBook_eq, latestBook_eq, Hnone. split; reflexivity. }
  split; [intros first; apply first_has_least_year; exact Hsorted |].
  split; [intros latest; apply latest_has_greatest_year; exact Hsorted |].
  destruct (stats_fields author books)
    as (first & latest & longest & shortest & Hf & Hl & _ & _ & Hs).
  rewrite firstBook_eq in Hf. rewrite latestBook_eq in Hl.
  eexists. split; [exact Hs |]. simpl. split; congruence.
Qed.

Lemma first_and_latest_book_witness :
  firstBook [Build_Book "b1" "Uno" (Some 2001) (Some 100) None;
             Build_Book "b2" "Dos" (Some 2010) None None]
  = Returns (Some {| by_title := "Uno"; year := Some 2001 |})
  /\ latestBook [Build_Book "b1" "Uno" (Some 2001) (Some 100) None;
                 Build_Book "b2" "Dos" (Some 2010) None None]
     = Returns (Some {| by_title := "Dos"; year := Some 2010 |}).
Proof.
  destruct (first_and_latest_book
              {| author_id := "a1"; author_name := "Ana" |}
              [Build_Book "b1" "Uno" (Some 2001) (Some 100) None;
               Build_Book "b2" "Dos" (Some 2010) None None])
    as (_ & _ & Hfirst & Hlatest & _).
  - discriminate.
  - repeat constructor.
  - split; [exact Hfirst | exact Hlatest].
Defined.

(** C7. longestBook and shortestBook are null when no book has a page
    count.  Otherwise longestBook is a book with a page count such that
    every such book before it in input order has strictly fewer pages and
    every one after it has at most as many; shortestBook likewise with
    strictly more before and at least as many after.  The payload carries
    the title and pages of these two. *)
Theorem longest_and_shortest_book (author : Author) (books : list Book) :
  let withPages := booksWithPages books in
  let count := fun b => or_zero (pages b) in
  (forall b, b ∈ withPages <->
     b ∈ books /\ exists p, pages b = Some p /\ count b = p)
  /\ (withPages = [] ->
      longestBook books = Returns None /\ shortestBook books = Returns None)
  /\ (withPages <> [] ->
      exists longest shortest,
        longestBook books = Returns (Some longest)
        /\ shortestBook books = Returns (Some shortest)
        /\ (exists l1 l2, withPages = l1 ++ longest :: l2
              /\ Forall (fun b => count b < count longest) l1
              /\ Forall (fun b => count b <= count longest) l2)
        /\ (exists l1 l2, withPages = l1 ++ shortest :: l2
              /\ Forall (fun b => count shortest < count b) l1
              /\ Forall (fun b => count shortest <= count b) l2))
  /\ exists s longest shortest,
       stats author books = Returns s
       /\ longestBook books = Returns longest
       /\ shortestBook books = Returns shortest
       /\ stats_longestBook s = bookData longest
       /\ stats_shortestBook s = bookData shortest.
Proof.
  intros withPages count. unfold withPages, count.
  split; [| split; [| split]].
  - intros b. rewrite elem_of_booksWithPages. split.
    + intros [Hb Hp]. split; [exact Hb |].
      destruct (pages b) as [p|]; [exists p; split; reflexivity | congruence].
    + intros [Hb (p & Hp & _)]. split; [exact Hb | congruence].
  - intros Hnil. rewrite longestBook_eq, shortestBook_eq, Hnil.
    split; reflexivity.
  - intros Hne. rewrite longestBook_eq, shortestBook_eq.
    destruct (booksWithPages books) as [|x l]; [congruence |].
    exists (foldl longer x l), (foldl shorter x l).
    split; [reflexivity |]. split; [reflexivity |]. split.
    + apply (foldl_first_greatest (fun b => or_zero (pages b)) longer).
      reflexivity.
    + destruct (foldl_first_greatest (fun b => - or_zero (pages b)) shorter)
        with (l := l) (x := x) as (l1 & l2 & Heq & Hl1 & Hl2).
      { intros acc b. unfold shorter.
        destruct (Z.ltb_spec (or_zero (pages b)) (or_zero (pages acc))),
                 (Z.gtb_spec (- or_zero (pages b)) (- or_zero (pages acc)));
          (reflexivity || lia). }
      exists l1, l2. split; [exact Heq |].
      split; (eapply Forall_impl; [eassumption |]); simpl; intros; lia.
  - destruct (stats_fields author books)
      as (first & latest & longest & shortest & _ & _ & Hlg & Hsh & Hs).
    eexists _, longest, shortest.
    split; [exact Hs |]. repeat split; assumption.
Qed.

(** C9. For an author without books the handler answers 200 with
    totalBooks 0, the four book references null, averagePages 0 and an
    empty genre list. *)
Theorem stats_of_no_books
  (findUnique : string -> outcome (option Author))
  (findMany : string -> outcome (list Book))
  (id : string) (author : Author) :
  findUnique id = Returns (Some author) ->
  findMany id = Returns [] ->
  GET findUnique findMany id
  = {| status := 200;
       body := StatsBody
                 {| authorId := author_id author;
                    authorName := author_name author;
                    totalBooks := 0;
                    stats_firstBook := None;
                    stats_latestBook := None;
                    stats_averagePages := of_Z 0;
                    stats_genres := [];
                    stats_longestBook := None;
                    stats_shortestBook := None |} |}.
Proof.
  intros Hauthor Hbooks. unfold GET. rewrite Hauthor. simpl.
  rewrite Hbooks. reflexivity.
Qed.

Lemma stats_of_no_books_witness :
  GET (fun _ => Returns (Some {| author_id := "a1"; author_name := "Ana" |}))
      (fun _ => Returns []) "a1"
  = {| status := 200;
       body := StatsBody
                 {| authorId := "a1";
                    authorName := "Ana";
                    totalBooks := 0;
                    stats_firstBook := None;
                    stats_latestBook := None;
                    stats_averagePages := of_Z 0;
                    stats_genres := [];
                    stats_longestBook := None;
                    stats_shortestBook := None |} |}.
Proof.
  apply (stats_of_no_books
           (fun _ => Returns (Some {| author_id := "a1"; author_name := "Ana" |}))
           (fun _ => Returns []) "a1"
           {| author_id := "a1"; author_name := "Ana" |}).
  - reflexivity.
  - reflexivity.
Defined.

(** *** Average page count *)

Lemma sumPages_from (books : list Book) (a : Z) :
  foldl (fun sum book => sum + or_zero (pages book)) a (booksWithPages books)
  = a + foldr Z.add 0 (pageCounts books).
Proof.
  revert a. unfold booksWithPages, pageCounts.
  induction books as [|b books IH]; intros a.
  - simpl. lia.
  - destruct (pages b) as [p|] eqn:Hp.
    + rewrite filter_cons_True by (rewrite Hp; discriminate).
      simpl. rewrite IH, Hp. simpl. rewrite <- Z.add_assoc. reflexivity.
    + rewrite filter_cons_False by (rewrite Hp; intros Hn; apply Hn; reflexivity).
      simpl. rewrite Hp. apply IH.
Qed.

Lemma length_booksWithPages (books : list Book) :
  length (booksWithPages books) = length (pageCounts books).
Proof.
  unfold booksWithPages, pageCounts.
  induction books as [|b books IH]; [reflexivity |].
  destruct (pages b) as [p|] eqn:Hp.
  - rewrite filter_cons_True by (rewrite Hp; discriminate).
    simpl. rewrite IH, Hp. reflexivity.
  - rewrite filter_cons_False by (rewrite Hp; intros Hn; apply Hn; reflexivity).
    simpl. rewrite Hp. exact IH.
Qed.

(** averagePages as a function of the defined page counts alone. *)
Lemma averagePages_eq (books : list Book) :
  averagePages books
  = match pageCounts books with
    | [] => of_Z 0
    | counts =>
        of_Z ((2 * foldr Z.add 0 counts + Z.of_nat (length counts))
              / (2 * Z.of_nat (length counts)))
    end.
Proof.
  unfold averagePages, sumPages.
  rewrite sumPages_from, length_booksWithPages.
  destruct (pageCounts books) as [|p counts].
  - reflexivity.
  - destruct (decide (0 < length (p :: counts))%nat) as [_ | Hn];
      [| simpl in Hn; lia].
    rewrite round_div_of_Z by (simpl length; lia).
    rewrite Z.add_0_l. reflexivity.
Qed.

Lemma elem_of_pageCounts (books : list Book) (p : Z) :
  p ∈ pageCounts books <-> exists b, b ∈ books /\ pages b = Some p.
Proof. unfold pageCounts. apply list_elem_of_omap. Qed.

Lemma pageCounts_nil (books : list Book) :
  pageCounts books = [] <-> forall b, b ∈ books -> pages b = None.
Proof.
  rewrite <- booksWithPages_nil. split; intros H.
  - apply length_zero_iff_nil. rewrite length_booksWithPages.
    apply length_zero_iff_nil. exact H.
  - apply length_zero_iff_nil.
    pose proof (length_booksWithPages books) as Hlen.
    rewrite H in Hlen. symmetry. exact Hlen.
Qed.

Lemma pageCounts_fmap (books : list Book) :
  pageCounts books = omap (fun o => o) (pages <$> books).
Proof.
  unfold pageCounts. induction books as [|b books IH]; simpl; [reflexivity |].
  destruct (pages b); simpl; [f_equal |]; exact IH.
Qed.

Example averagePages_100_200_300 :
  averagePages [Build_Book "b1" "Uno" None (Some 100) None;
                Build_Book "b2" "Dos" (Some 1999) (Some 200) None;
                Build_Book "b3" "Tres" None None (Some "ensayo");
                Build_Book "b4" "Cuatro" None (Some 300) None]
  = of_Z 200.
Proof. reflexivity. Qed.

(** C6. averagePages is the mean of the defined page counts of the list,
    rounded to the nearest integer (a half going up), and 0 when no book
    has a page count.  It depends on the pages column alone, so a book
    with pages and no year contributes like any other.  Page counts
    100, 200, 300 give 200; a list without page counts gives 0. *)
Theorem average_pages (books : list Book) :
  let counts := pageCounts books in
  let n := Z.of_nat (length counts) in
  let total := foldr Z.add 0 counts in
  (forall p, p ∈ counts <-> exists b, b ∈ books /\ pages b = Some p)
  /\ (counts = [] -> averagePages books = of_Z 0)
  /\ (counts <> [] ->
      exists avg, averagePages books = of_Z avg
                  /\ - n < 2 * (n * avg - total) <= n)
  /\ (forall books', pages <$> books' = pages <$> books ->
        averagePages books' = averagePages books)
  /\ (counts = [100; 200; 300] -> averagePages books = of_Z 200)
  /\ ((forall b, b ∈ books -> pages b = None) -> averagePages books = of_Z 0).
Proof.
  cbv zeta.
  split; [apply elem_of_pageCounts |].
  split; [intros Hnil; rewrite averagePages_eq, Hnil; reflexivity |].
  split.
  { intros Hne. rewrite averagePages_eq.
    destruct (pageCounts books) as [|p l] eqn:Hc; [congruence |].
    eexists. split; [reflexivity |].
    set (m := Z.of_nat (length (p :: l))).
    set (sum := foldr Z.add 0 (p :: l)).
    assert (Hm : 0 < m) by (unfold m; simpl length; lia).
    pose proof (Z.div_mod (2 * sum + m) (2 * m) ltac:(lia)) as Hdm.
    pose proof (Z.mod_pos_bound (2 * sum + m) (2 * m) ltac:(lia)) as Hmod.
    nia. }
  split.
  { intros books' Hsame. rewrite !averagePages_eq, !pageCounts_fmap, Hsame.
    reflexivity. }
  split.
  { intros Hc. rewrite averagePages_eq, Hc. reflexivity. }
  intros Hnone. apply pageCounts_nil in Hnone.
  rewrite averagePages_eq, Hnone. reflexivity.
Qed.

(** *** Genres *)

Lemma Set_add_spec {A} `{EqDecision A} (acc : list A) (x y : A) :
  y ∈ Set_add acc x <-> y ∈ acc \/ y = x.
Proof.
  unfold Set_add. destruct (decide (x ∈ acc)) as [Hin | Hout].
  - split; [tauto |]. intros [Hy | ->]; assumption.
  - rewrite elem_of_app, list_elem_of_singleton. reflexivity.
Qed.

Lemma Set_add_NoDup {A} `{EqDecision A} (acc : list A) (x : A) :
  NoDup acc -> NoDup (Set_add acc x).
Proof.
  intros Hnd. unfold Set_add. destruct (decide (x ∈ acc)) as [Hin | Hout].
  - exact Hnd.
  - apply NoDup_app. split; [exact Hnd |]. split; [| apply NoDup_singleton].
    intros y Hy Hyx. apply list_elem_of_singleton in Hyx. subst. contradiction.
Qed.

Lemma Set_from_acc {A} `{EqDecision A} (l acc : list A) :
  NoDup acc ->
  NoDup (foldl Set_add acc l)
  /\ forall y, y ∈ foldl Set_add acc l <-> y ∈ acc \/ y ∈ l.
Proof.
  revert acc. induction l as [|x l IH]; intros acc Hnd; simpl.
  - split; [exact Hnd |]. intros y. rewrite elem_of_nil. tauto.
  - destruct (IH (Set_add acc x) (Set_add_NoDup acc x Hnd)) as [Hnd' Hin].
    split; [exact Hnd' |]. intros y.
    rewrite Hin, Set_add_spec, elem_of_cons. tauto.
Qed.

Lemma Set_from_spec {A} `{EqDecision A} (l : list A) :
  NoDup (Set_from l) /\ forall y, y ∈ Set_from l <-> y ∈ l.
Proof.
  destruct (Set_from_acc l [] (NoDup_nil_2)) as [Hnd Hin].
  split; [exact Hnd |]. intros y. unfold Set_from. rewrite Hin, elem_of_nil. tauto.
Qed.

Lemma sort_insert_Permutation (x : option string) (l : list (option string)) :
  sort_insert x l ≡ₚ x :: l.
Proof.
  induction l as [|y l IH]; simpl; [reflexivity |].
  destruct (sort_le x y); [reflexivity |].
  rewrite IH. apply Permutation_swap.
Qed.

Lemma sort_Permutation (l : list (option string)) : sort l ≡ₚ l.
Proof.
  unfold sort. induction l as [|x l IH]; simpl; [reflexivity |].
  rewrite sort_insert_Permutation, IH. reflexivity.
Qed.

Lemma sort_le_total (x y : option string) :
  sort_le x y = true \/ sort_le y x = true.
Proof. apply String.leb_total. Qed.

Lemma sort_insert_HdRel (a x : option string) (l : list (option string)) :
  sort_le a x = true ->
  HdRel (fun u v => sort_le u v = true) a l ->
  HdRel (fun u v => sort_le u v = true) a (sort_insert x l).
Proof.
  intros Hax Hal. destruct l as [|y l]; simpl.
  - constructor. exact Hax.
  - destruct (sort_le x y); constructor; [exact Hax |].
    inversion Hal; assumption.
Qed.

Lemma sort_insert_Sorted (x : option string) (l : list (option string)) :
  Sorted (fun u v => sort_le u v = true) l ->
  Sorted (fun u v => sort_le u v = true) (sort_insert x l).
Proof.
  induction 1 as [|y l Hsorted IH Hhd]; simpl.
  - repeat constructor.
  - destruct (sort_le x y) eqn:Hxy.
    + constructor; [constructor; assumption | constructor; exact Hxy].
    + constructor; [exact IH |].
      apply sort_insert_HdRel; [| exact Hhd].
      destruct (sort_le_total x y); congruence.
Qed.

Lemma sort_Sorted (l : list (option string)) :
  Sorted (fun u v => sort_le u v = true) (sort l).
Proof.
  unfold sort. induction l as [|x l IH]; simpl.
  - constructor.
  - apply sort_insert_Sorted. exact IH.
Qed.

Lemma leb_ne_ltb (x y : string) :
  String.leb x y = true -> x <> y -> string_lt x y.
Proof.
  unfold String.leb, string_lt, String.ltb. intros Hle Hne.
  destruct (String.compare x y) eqn:Hc; try discriminate; [| reflexivity].
  apply String.compare_eq_iff in Hc. contradiction.
Qed.

(** A sorted list without repetitions is strictly sorted. *)
Lemma Sorted_NoDup_strict (gs : list string) :
  Sorted (fun u v => String.leb u v = true) gs -> NoDup gs ->
  Sorted string_lt gs.
Proof.
  induction 1 as [|x l Hsorted IH Hhd]; intros Hnd; [constructor |].
  apply NoDup_cons in Hnd. destruct Hnd as [Hx Hnd].
  constructor; [apply IH; exact Hnd |].
  destruct Hhd as [|y l Hxy]; constructor.
  apply leb_ne_ltb; [exact Hxy |].
  intros ->. apply Hx. apply list_elem_of_here.
Qed.

Lemma all_Some_fmap (l : list (option string)) :
  (forall o, o ∈ l -> exists g, o = Some g) ->
  l = Some <$> (ToString <$> l).
Proof.
  induction l as [|o l IH]; intros Hall; simpl; [reflexivity |].
  destruct (Hall o (list_elem_of_here _ _)) as (g & ->). simpl. f_equal.
  apply IH. intros o Ho. apply Hall. apply list_elem_of_further. exact Ho.
Qed.

Lemma truthy_ne (g : string) : truthy g = true <-> g <> "".
Proof. destruct g; simpl; split; congruence. Qed.

Lemma elem_of_genres (books : list Book) (o : option string) :
  o ∈ genres books <->
  exists g, o = Some g /\ g <> "" /\ exists b, b ∈ books /\ genre b = Some g.
Proof.
  unfold genres. rewrite sort_Permutation.
  rewrite (proj2 (Set_from_spec _)).
  rewrite list_elem_of_fmap. split.
  - intros (b & -> & Hb). apply list_elem_of_filter in Hb.
    destruct Hb as [Ht Hb]. destruct (genre b) as [g|] eqn:Hg; [| contradiction].
    simpl in Ht. apply Is_true_true, truthy_ne in Ht.
    exists g. split; [reflexivity |]. split; [exact Ht |]. exists b. tauto.
  - intros (g & -> & Hne & b & Hb & Hg). exists b. split; [congruence |].
    apply list_elem_of_filter. split; [| exact Hb].
    rewrite Hg. simpl. apply Is_true_true, truthy_ne. exact Hne.
Qed.

Lemma genres_of_column (books : list Book) :
  genres books = sort (Set_from (filter (fun o => truthy_opt o) (genre <$> books))).
Proof.
  unfold genres. f_equal. f_equal.
  induction books as [|b books IH]; [reflexivity |].
  rewrite fmap_cons, !filter_cons.
  destruct (decide (truthy_opt (genre b))).
  - rewrite fmap_cons, IH. reflexivity.
  - exact IH.
Qed.

Example genres_sample :
  genres [Build_Book "b1" "Uno" None None (Some "novela");
          Build_Book "b2" "Dos" None None (Some "ensayo");
          Build_Book "b3" "Tres" None None None;
          Build_Book "b4" "Cuatro" None None (Some "novela");
          Build_Book "b5" "Cinco" None None (Some "")]
  = [Some "ensayo"; Some "novela"].
Proof. reflexivity. Qed.

(** C8 does not hold as stated: a book whose genre is the empty string
    has a non-null genre, and the genre list leaves it out. *)
Lemma empty_genre_left_out :
  ~ (exists gs : list string,
       genres [Build_Book "b1" "Uno" None None (Some "")] = Some <$> gs
       /\ forall g, g ∈ gs <->
            exists b, b ∈ [Build_Book "b1" "Uno" None None (Some "")]
                      /\ genre b = Some g).
Proof.
  intros (gs & Hgs & Hall).
  change (genres [Build_Book "b1" "Uno" None None (Some "")]) with (@nil (option string)) in Hgs.
  symmetry in Hgs. apply fmap_nil_inv in Hgs. subst gs.
  assert (Hin : "" ∈ @nil string).
  { apply Hall. eexists. split; [apply list_elem_of_here | reflexivity]. }
  apply elem_of_nil in Hin. exact Hin.
Qed.

(** C8, amended.  The genre list is an array of strings in strictly
    ascending order of code units, hence sorted and without duplicates;
    its elements are exactly the genre values of the list that are
    neither null nor the empty string.  It depends on the genre column
    alone. *)
Theorem genres_sorted_distinct (books : list Book) :
  exists gs : list string,
    genres books = Some <$> gs
    /\ Sorted string_lt gs
    /\ NoDup gs
    /\ (forall g, g ∈ gs <->
          g <> "" /\ exists b, b ∈ books /\ genre b = Some g)
    /\ (forall books', genre <$> books' = genre <$> books ->
          genres books' = genres books).
Proof.
  exists (ToString <$> genres books).
  assert (Hsome : genres books = Some <$> (ToString <$> genres books)).
  { apply all_Some_fmap. intros o Ho. apply elem_of_genres in Ho.
    destruct Ho as (g & -> & _). exists g. reflexivity. }
  assert (Hnd : NoDup (ToString <$> genres books)).
  { apply (NoDup_fmap_1 Some). rewrite <- Hsome.
    unfold genres. rewrite sort_Permutation. apply Set_from_spec. }
  split; [exact Hsome |]. split; [| split; [exact Hnd | split]].
  - apply Sorted_NoDup_strict; [| exact Hnd].
    eapply Sorted_fmap; [| apply sort_Sorted].
    intros u v Huv. exact Huv.
  - intros g. rewrite list_elem_of_fmap. split.
    + intros (o & -> & Ho). apply elem_of_genres in Ho.
      destruct Ho as (g & -> & Hne & Hb). simpl. split; assumption.
    + intros (Hne & Hb). exists (Some g). split; [reflexivity |].
      apply elem_of_genres. exists g. repeat split; assumption.
  - intros books' Hsame. rewrite !genres_of_column, Hsame. reflexivity.
Qed.

(** *** Null references come in pairs *)

Lemma sum_of_positive (counts : list Z) :
  Forall (fun p => 0 < p) counts ->
  Z.of_nat (length counts) <= foldr Z.add 0 counts.
Proof.
  induction 1 as [|p counts Hp _ IH]; simpl foldr; simpl length; lia.
Qed.

Example zero_pages_average :
  averagePages [Build_Book "b1" "Uno" None (Some 0) None] = of_Z 0
  /\ longestBook [Build_Book "b1" "Uno" None (Some 0) None]
     = Returns (Some (Build_Book "b1" "Uno" None (Some 0) None)).
Proof. split; reflexivity. Qed.

(** C10. The handler's computation always returns a payload, and in it
    firstBook is null exactly when latestBook is, which is exactly when
    no book has a year; longestBook is null exactly when shortestBook is,
    which is exactly when no book has a page count, the case in which
    averagePages is 0 by the rule for an empty subset.  When all page
    counts are positive, averagePages is 0 in that case only. *)
Theorem null_references_pair_up (author : Author) (books : list Book) :
  exists s,
    stats author books = Returns s
    /\ (stats_firstBook s = None <-> stats_latestBook s = None)
    /\ (stats_firstBook s = None <->
        forall b, b ∈ books -> publishedYear b = None)
    /\ (stats_longestBook s = None <-> stats_shortestBook s = None)
    /\ (stats_longestBook s = None <->
        forall b, b ∈ books -> pages b = None)
    /\ (booksWithPages books = [] <->
        forall b, b ∈ books -> pages b = None)
    /\ (booksWithPages books = [] -> stats_averagePages s = of_Z 0)
    /\ ((forall b p, b ∈ books -> pages b = Some p -> 0 < p) ->
        stats_averagePages s = of_Z 0 ->
        forall b, b ∈ books -> pages b = None).
Proof.
  destruct (stats_fields author books)
    as (first & latest & longest & shortest & Hf & Hl & Hlg & Hsh & Hs).
  rewrite firstBook_eq in Hf. rewrite latestBook_eq in Hl.
  rewrite longestBook_eq in Hlg. rewrite shortestBook_eq in Hsh.
  injection Hf as <-. injection Hl as <-.
  injection Hlg as <-. injection Hsh as <-.
  eexists. split; [exact Hs |]. simpl.
  assert (Hyear : bookYear <$> head (booksWithYear books) = None
                  <-> booksWithYear books = []).
  { rewrite fmap_None. apply head_None. }
  assert (Hyear' : bookYear <$> last (booksWithYear books) = None
                   <-> booksWithYear books = []).
  { rewrite fmap_None. apply last_None. }
  assert (Hlong : bookData match booksWithPages books with
                           | x :: l => Some (foldl longer x l)
                           | [] => None
                           end = None
                  <-> booksWithPages books = []).
  { destruct (booksWithPages books); simpl; split; congruence. }
  assert (Hshort : bookData match booksWithPages books with
                            | x :: l => Some (foldl shorter x l)
                            | [] => None
                            end = None
                   <-> booksWithPages books = []).
  { destruct (booksWithPages books); simpl; split; congruence. }
  split; [rewrite Hyear, Hyear'; reflexivity |].
  split; [rewrite Hyear; apply booksWithYear_nil |].
  split; [rewrite Hlong, Hshort; reflexivity |].
  split; [rewrite Hlong; apply booksWithPages_nil |].
  split; [apply booksWithPages_nil |].
  split.
  - intros Hnil. rewrite booksWithPages_nil, <- pageCounts_nil in Hnil.
    rewrite averagePages_eq, Hnil. reflexivity.
  - intros Hpos Havg. apply pageCounts_nil.
    rewrite averagePages_eq in Havg.
    destruct (pageCounts books) as [|p l] eqn:Hc; [reflexivity | exfalso].
    apply of_Z_inj in Havg.
    assert (Hall : Forall (fun p => 0 < p) (p :: l)).
    { apply Forall_forall. intros q Hq. rewrite <- Hc in Hq.
      apply elem_of_pageCounts in Hq. destruct Hq as (b & Hb & Hbq).
      exact (Hpos b q Hb Hbq). }
    apply sum_of_positive in Hall.
    set (m := Z.of_nat (length (p :: l))) in *.
    set (sum := foldr Z.add 0 (p :: l)) in *.
    assert (Hm : 0 < m) by (unfold m; simpl length; lia).
    pose proof (Z.div_mod (2 * sum + m) (2 * m) ltac:(lia)) as Hdm.
    pose proof (Z.mod_pos_bound (2 * sum + m) (2 * m) ltac:(lia)) as Hmod.
    rewrite Havg in Hdm. lia.
Qed.

End StatsSpec.

(** ** Reading back a rendered integer *)

Module JsTextFacts.
Import Js JsText JsFacts.

Local Open Scope string_scope.
Local Open Scope Z_scope.

Ltac digit_cases d :=
  let H := fresh "Hd" in
  assert (H : d = 0 \/ d = 1 \/ d = 2 \/ d = 3 \/ d = 4 \/ d = 5 \/ d = 6
              \/ d = 7 \/ d = 8 \/ d = 9) by lia;
  destruct H as [-> | [-> | [-> | [-> | [-> | [-> | [-> | [-> | [-> | ->]]]]]]]]].

Lemma digit_value_digit_char (d : Z) :
  0 <= d < 10 -> digit_value 10 (digit_char d) = Some d.
Proof. intros Hd. digit_cases d; reflexivity. Qed.

Lemma read_digits_cons (acc : option Z) (d : Z) (s : string) :
  0 <= d < 10 ->
  read_digits 10 acc (String (digit_char d) s)
  = read_digits 10
      (Some (match acc with Some a => a * 10 + d | None => d end)) s.
Proof.
  intros Hd. cbn [read_digits]. rewrite (digit_value_digit_char d Hd).
  reflexivity.
Qed.

(** Reading the digits of [n] yields [n]. *)
Lemma read_digits_digits_of (fuel : nat) (n : Z) (s : string) :
  0 <= n < 2 ^ Z.of_nat fuel ->
  read_digits 10 None (digits_of fuel n s) = read_digits 10 (Some n) s.
Proof.
  revert n s. induction fuel as [|fuel IH]; intros n s Hn.
  - change (2 ^ Z.of_nat 0) with 1 in Hn.
    cbn [digits_of]. rewrite read_digits_cons by lia. reflexivity.
  - cbn [digits_of]. destruct (Z.ltb_spec n 10) as [Hlt | Hge].
    + rewrite read_digits_cons by lia. reflexivity.
    + assert (Hpow : 2 ^ Z.of_nat (S fuel) = 2 * 2 ^ Z.of_nat fuel).
      { rewrite Nat2Z.inj_succ, Z.pow_succ_r by lia. reflexivity. }
      pose proof (Z.div_mod n 10 ltac:(lia)) as Hdm.
      pose proof (Z.mod_pos_bound n 10 ltac:(lia)) as Hmod.
      rewrite IH by lia.
      rewrite read_digits_cons by lia.
      do 2 f_equal. lia.
Qed.

(** The rendered digits start with a digit, and what follows the first
    digit is the rest given or starts with a digit again. *)
Lemma digits_of_head (fuel : nat) (n : Z) (s : string) :
  0 <= n < 2 ^ Z.of_nat fuel ->
  exists d r, 0 <= d < 10 /\ digits_of fuel n s = String (digit_char d) r
              /\ (r = s \/ exists d' r', 0 <= d' < 10
                                         /\ r = String (digit_char d') r').
Proof.
  revert n s. induction fuel as [|fuel IH]; intros n s Hn.
  - change (2 ^ Z.of_nat 0) with 1 in Hn.
    exists n, s. cbn [digits_of]. repeat split; try lia. left. reflexivity.
  - cbn [digits_of]. destruct (Z.ltb_spec n 10) as [Hlt | Hge].
    + exists n, s. repeat split; try lia. left. reflexivity.
    + assert (Hpow : 2 ^ Z.of_nat (S fuel) = 2 * 2 ^ Z.of_nat fuel).
      { rewrite Nat2Z.inj_succ, Z.pow_succ_r by lia. reflexivity. }
      pose proof (Z.div_mod n 10 ltac:(lia)) as Hdm.
      pose proof (Z.mod_pos_bound n 10 ltac:(lia)) as Hmod.
      destruct (IH (n / 10) (String (digit_char (n mod 10)) s) ltac:(lia))
        as (d & r & Hd & Heq & Hr).
      exists d, r. split; [exact Hd |]. split; [exact Heq |]. right.
      destruct Hr as [-> | Hr]; [| exact Hr].
      exists (n mod 10), s. split; [lia | reflexivity].
Qed.

Lemma parseInt_digits (d : Z) (r : string) :
  0 <= d < 10 ->
  (r = "" \/ exists d' r', 0 <= d' < 10 /\ r = String (digit_char d') r') ->
  parseInt (String (digit_char d) r)
  = match read_digits 10 None (String (digit_char d) r) with
    | Some v => of_Z v
    | None => NaN
    end
  /\ parseInt (String "-" (String (digit_char d) r))
     = match read_digits 10 None (String (digit_char d) r) with
       | Some v => of_Z (- v)
       | None => NaN
       end.
Proof.
  intros Hd [-> | (d' & r' & Hd' & ->)].
  - digit_cases d; split; reflexivity.
  - digit_cases d; digit_cases d'; split; reflexivity.
Qed.

Lemma log2_fuel (n : Z) : 0 <= n -> n < 2 ^ Z.of_nat (S (Z.to_nat (Z.log2 n))).
Proof.
  intros Hn. rewrite Nat2Z.inj_succ, Z2Nat.id by apply Z.log2_nonneg.
  destruct (Z.eq_dec n 0) as [-> | Hne]; [reflexivity |].
  apply Z.log2_spec. lia.
Qed.

Lemma parseInt_toString (n : Z) : parseInt (toString n) = of_Z n.
Proof.
  unfold toString. destruct (Z.ltb_spec n 0) as [Hneg | Hpos].
  - assert (Hn : 0 <= - n) by lia.
    pose proof (log2_fuel (- n) Hn) as Hfuel.
    destruct (digits_of_head _ (- n) "" (conj Hn Hfuel))
      as (d & r & Hd & Heq & Hr).
    rewrite Heq. rewrite (proj2 (parseInt_digits d r Hd Hr)).
    rewrite <- Heq, read_digits_digits_of by (split; assumption).
    cbn [read_digits]. f_equal. lia.
  - pose proof (log2_fuel n Hpos) as Hfuel.
    destruct (digits_of_head _ n "" (conj Hpos Hfuel))
      as (d & r & Hd & Heq & Hr).
    rewrite Heq. rewrite (proj1 (parseInt_digits d r Hd Hr)).
    rewrite <- Heq, read_digits_digits_of by (split; assumption).
    reflexivity.
Qed.

Lemma toString_truthy (n : Z) : truthy (toString n) = true.
Proof.
  unfold toString. destruct (Z.ltb_spec n 0) as [Hneg | Hpos]; [reflexivity |].
  destruct (digits_of_head _ n "" (conj Hpos (log2_fuel n Hpos)))
    as (d & r & _ & -> & _).
  reflexivity.
Qed.

End JsTextFacts.

(** ** Properties of the pagination bar *)

Module PaginatorSpec.
Import Paginator.

Local Open Scope Z_scope.
Local Open Scope list_scope.

(** The loop pushes the integers from [i] to [endPage]. *)
Lemma push_pages_seqZ (fuel : nat) (i endPage : Z) (acc : list Z) :
  endPage - i + 1 <= Z.of_nat fuel ->
  push_pages fuel i endPage acc = acc ++ seqZ i (endPage - i + 1).
Proof.
  revert i acc. induction fuel as [|fuel IH]; intros i acc Hfuel.
  - cbn [push_pages]. rewrite seqZ_nil by lia. rewrite app_nil_r. reflexivity.
  - cbn [push_pages]. destruct (Z.leb_spec i endPage) as [Hle | Hgt].
    + rewrite IH by lia. rewrite (seqZ_cons i) by lia.
      rewrite <- app_assoc. simpl. do 3 f_equal; lia.
    + rewrite seqZ_nil by lia. rewrite app_nil_r. reflexivity.
Qed.

Lemma pages_seqZ (currentPage totalPages : Z) :
  pages currentPage totalPages
  = seqZ (startPage currentPage totalPages)
         (endPage currentPage totalPages - startPage currentPage totalPages + 1).
Proof.
  unfold pages. rewrite push_pages_seqZ by lia. reflexivity.
Qed.

(** How the two ends of the window lie. *)
Lemma window_ends (currentPage totalPages : Z) :
  let s := startPage currentPage totalPages in
  let e := endPage currentPage totalPages in
  1 <= s
  /\ e <= totalPages
  /\ e - s + 1 <= 5
  /\ (1 <= totalPages -> s <= e)
  /\ (1 < s -> 5 < e)
  /\ (e < totalPages -> s + 4 = e)
  /\ (1 <= currentPage <= totalPages -> s <= currentPage <= e)
  /\ (1 <= currentPage <= totalPages -> e - s + 1 = Z.min 5 totalPages).
Proof.
  cbv zeta.
  unfold startPage, endPage, startPage_initial, maxPagesToShow.
  change (5 / 2) with 2.
  destruct (Z.ltb_spec
              (Z.min totalPages (Z.max 1 (currentPage - 2) + 5 - 1)
               - Z.max 1 (currentPage - 2) + 1) 5);
    repeat split; lia.
Qed.

Lemma seqZ_StronglySorted (m n : Z) : StronglySorted Z.lt (seqZ m n).
Proof.
  destruct (Z.le_gt_cases n 0) as [Hn | Hn].
  - rewrite seqZ_nil by lia. constructor.
  - rewrite <- (Z2Nat.id n) by lia. generalize (Z.to_nat n) as k. clear.
    intros k. revert m. induction k as [|k IH]; intros m.
    + rewrite seqZ_nil by lia. constructor.
    + rewrite seqZ_cons by lia. constructor.
      * replace (Z.pred (Z.of_nat (S k))) with (Z.of_nat k) by lia. apply IH.
      * apply Forall_forall. intros x Hx. apply elem_of_seqZ in Hx. lia.
Qed.

Lemma page_buttons_render (currentPage totalPages : Z) (hasNext hasPrev : bool) :
  page_buttons (render currentPage totalPages hasNext hasPrev)
  = (if 1 <? startPage currentPage totalPages then [1] else [])
    ++ pages currentPage totalPages
    ++ (if endPage currentPage totalPages <? totalPages
        then [totalPages] else []).
Proof.
  unfold page_buttons, render. rewrite !omap_app. cbn [omap list_omap app].
  f_equal.
  { destruct (1 <? startPage currentPage totalPages); [| reflexivity].
    destruct (2 <? startPage currentPage totalPages); reflexivity. }
  f_equal.
  { induction (pages currentPage totalPages) as [|p l IH]; [reflexivity |].
    rewrite fmap_cons. cbn [omap list_omap]. f_equal. exact IH. }
  rewrite app_nil_r.
  destruct (endPage currentPage totalPages <? totalPages); [| reflexivity].
  destruct (endPage currentPage totalPages <? totalPages - 1); reflexivity.
Qed.

Lemma active_buttons_render (currentPage totalPages : Z) (hasNext hasPrev : bool) :
  active_buttons (render currentPage totalPages hasNext hasPrev)
  = filter (fun page => page = currentPage) (pages currentPage totalPages).
Proof.
  unfold active_buttons, render. rewrite !omap_app. cbn [omap list_omap app].
  replace (omap _ (if 1 <? startPage currentPage totalPages
                   then [PageButton 1 false]
                        ++ (if 2 <? startPage currentPage totalPages
                            then [Ellipsis] else [])
                   else [])) with (@nil Z).
  2:{ destruct (1 <? startPage currentPage totalPages); [| reflexivity].
      destruct (2 <? startPage currentPage totalPages); reflexivity. }
  replace (omap _ (if endPage currentPage totalPages <? totalPages
                   then (if endPage currentPage totalPages <? totalPages - 1
                         then [Ellipsis] else [])
                        ++ [PageButton totalPages false]
                   else [])) with (@nil Z).
  2:{ destruct (endPage currentPage totalPages <? totalPages); [| reflexivity].
      destruct (endPage currentPage totalPages <? totalPages - 1); reflexivity. }
  rewrite app_nil_r. cbn [app].
  induction (pages currentPage totalPages) as [|p l IH]; [reflexivity |].
  rewrite fmap_cons, filter_cons. cbn [omap list_omap].
  destruct (Z.eqb_spec p currentPage) as [Heq | Hne].
  - rewrite decide_True by exact Heq. f_equal. exact IH.
  - rewrite decide_False by exact Hne. exact IH.
Qed.

Lemma filter_eq_none (x : Z) (l : list Z) :
  x ∉ l -> filter (fun page => page = x) l = [].
Proof.
  induction l as [|y l IH]; intros Hx; [reflexivity |].
  apply not_elem_of_cons in Hx. destruct Hx as [Hne Hx].
  rewrite filter_cons_False by congruence. apply IH. exact Hx.
Qed.

Lemma filter_eq_seqZ (x m n : Z) :
  m <= x < m + n -> filter (fun page => page = x) (seqZ m n) = [x].
Proof.
  intros Hx.
  assert (Hn : n = (x - m) + (1 + (m + n - x - 1))) by lia.
  remember (x - m) as a eqn:Ha. remember (m + n - x - 1) as b eqn:Hb.
  rewrite Hn. assert (Hxa : x = m + a) by lia.
  rewrite seqZ_app by lia. rewrite (seqZ_app (m + a)) by lia.
  rewrite !filter_app.
  rewrite (filter_eq_none x (seqZ m a)) by (rewrite elem_of_seqZ; lia).
  rewrite (filter_eq_none x (seqZ (m + a + 1) b))
    by (rewrite elem_of_seqZ; lia).
  rewrite (seqZ_cons (m + a) 1) by lia.
  rewrite (seqZ_nil (Z.succ (m + a))) by lia.
  rewrite filter_cons_True by lia. rewrite Hxa. reflexivity.
Qed.

Lemma elem_of_render (currentPage totalPages : Z) (hasNext hasPrev : bool)
  (item : Item) :
  item ∈ render currentPage totalPages hasNext hasPrev ->
  item = PrevButton hasPrev (currentPage - 1)
  \/ (item = PageButton 1 false /\ 1 < startPage currentPage totalPages)
  \/ item = Ellipsis
  \/ (exists page, item = PageButton page (page =? currentPage)
                   /\ page ∈ pages currentPage totalPages)
  \/ (item = PageButton totalPages false
      /\ endPage currentPage totalPages < totalPages)
  \/ item = NextButton hasNext (currentPage + 1).
Proof.
  unfold render. rewrite !elem_of_app.
  intros [H | [H | [H | [H | H]]]].
  - apply list_elem_of_singleton in H. tauto.
  - destruct (Z.ltb_spec 1 (startPage currentPage totalPages)) as [Hs | Hs];
      [| apply elem_of_nil in H; contradiction].
    apply elem_of_app in H. destruct H as [H | H].
    + apply list_elem_of_singleton in H. tauto.
    + destruct (2 <? startPage currentPage totalPages);
        [apply list_elem_of_singleton in H; tauto
        | apply elem_of_nil in H; contradiction].
  - apply list_elem_of_fmap in H. destruct H as (page & -> & Hpage).
    right. right. right. left. exists page. tauto.
  - destruct (Z.ltb_spec (endPage currentPage totalPages) totalPages)
      as [He | He]; [| apply elem_of_nil in H; contradiction].
    apply elem_of_app in H. destruct H as [H | H].
    + destruct (endPage currentPage totalPages <? totalPages - 1);
        [apply list_elem_of_singleton in H; tauto
        | apply elem_of_nil in H; contradiction].
    + apply list_elem_of_singleton in H. tauto.
  - apply list_elem_of_singleton in H. tauto.
Qed.

(** X1. Whatever the props, the numbered window is the run of
    consecutive integers from [startPage] to [endPage]; it has at most
    five entries and each lies between 1 and [totalPages]. *)
Theorem window_is_a_bounded_run (currentPage totalPages : Z) :
  pages currentPage totalPages
  = seqZ (startPage currentPage totalPages)
         (endPage currentPage totalPages - startPage currentPage totalPages + 1)
  /\ (length (pages currentPage totalPages) <= 5)%nat
  /\ StronglySorted Z.lt (pages currentPage totalPages)
  /\ (forall p, p ∈ pages currentPage totalPages <->
        startPage currentPage totalPages <= p <= endPage currentPage totalPages)
  /\ (forall p, p ∈ pages currentPage totalPages -> 1 <= p <= totalPages).
Proof.
  pose proof (window_ends currentPage totalPages) as Hw. cbv zeta in Hw.
  destruct Hw as (Hs & He & Hlen & _).
  rewrite pages_seqZ.
  split; [reflexivity |]. split; [rewrite length_seqZ; lia |].
  split; [apply seqZ_StronglySorted |].
  split; intros p; rewrite elem_of_seqZ; lia.
Qed.

(** X2. When the current page lies between 1 and [totalPages],
    the window contains it, has min(5, totalPages) entries, and exactly
    one numbered button of the bar, the one of the current page, is shown
    as active. *)
Theorem current_page_is_shown (currentPage totalPages : Z)
  (hasNext hasPrev : bool) :
  1 <= currentPage <= totalPages ->
  currentPage ∈ pages currentPage totalPages
  /\ length (pages currentPage totalPages) = Z.to_nat (Z.min 5 totalPages)
  /\ active_buttons (render currentPage totalPages hasNext hasPrev)
     = [currentPage].
Proof.
  intros Hcp.
  pose proof (window_ends currentPage totalPages) as Hw. cbv zeta in Hw.
  destruct Hw as (Hs & He & _ & _ & _ & _ & Hin & Hlen).
  specialize (Hin Hcp). specialize (Hlen Hcp).
  rewrite active_buttons_render, pages_seqZ.
  split; [rewrite elem_of_seqZ; lia |].
  split; [rewrite length_seqZ; lia |].
  apply filter_eq_seqZ. lia.
Qed.

Lemma current_page_is_shown_witness :
  5 ∈ pages 5 10
  /\ length (pages 5 10) = Z.to_nat (Z.min 5 10)
  /\ active_buttons (render 5 10 true true) = [5].
Proof.
  apply (current_page_is_shown 5 10 true true). lia.
Defined.

(** X3. The numbered buttons of the bar are in strictly ascending
    order, so no page is offered twice; when there is at least one page,
    the first numbered button is page 1 and the last is page
    [totalPages], wherever the current page is. *)
Theorem first_and_last_page_offered (currentPage totalPages : Z)
  (hasNext hasPrev : bool) :
  StronglySorted Z.lt
    (page_buttons (render currentPage totalPages hasNext hasPrev))
  /\ (1 <= totalPages ->
      head (page_buttons (render currentPage totalPages hasNext hasPrev))
      = Some 1
      /\ last (page_buttons (render currentPage totalPages hasNext hasPrev))
         = Some totalPages).
Proof.
  pose proof (window_ends currentPage totalPages) as Hw. cbv zeta in Hw.
  destruct Hw as (Hs & He & Hlen & Hne & Hs1 & He1 & _).
  rewrite page_buttons_render, pages_seqZ.
  set (s := startPage currentPage totalPages) in *.
  set (e := endPage currentPage totalPages) in *.
  split.
  - apply StronglySorted_app_2.
    + intros x y Hx Hy.
      destruct (Z.ltb_spec 1 s);
        [apply list_elem_of_singleton in Hx
        | apply elem_of_nil in Hx; contradiction].
      apply elem_of_app in Hy. destruct Hy as [Hy | Hy].
      * apply elem_of_seqZ in Hy. lia.
      * destruct (Z.ltb_spec e totalPages);
          [apply list_elem_of_singleton in Hy; lia
          | apply elem_of_nil in Hy; contradiction].
    + destruct (1 <? s); repeat constructor.
    + apply StronglySorted_app_2.
      * intros x y Hx Hy. apply elem_of_seqZ in Hx.
        destruct (Z.ltb_spec e totalPages);
          [apply list_elem_of_singleton in Hy; lia
          | apply elem_of_nil in Hy; contradiction].
      * apply seqZ_StronglySorted.
      * destruct (e <? totalPages); repeat constructor.
  - intros Htp. specialize (Hne Htp).
    rewrite (seqZ_cons s) by lia. split.
    + destruct (Z.ltb_spec 1 s); [reflexivity |].
      simpl. f_equal. lia.
    + destruct (Z.ltb_spec e totalPages).
      * rewrite app_assoc. apply last_snoc.
      * rewrite app_nil_r, <- (seqZ_cons s) by lia.
        rewrite last_app.
        replace (e - s + 1) with (Z.of_nat (S (Z.to_nat (e - s)))) by lia.
        rewrite seqZ_S, last_snoc. f_equal. lia.
Qed.

Lemma first_and_last_page_offered_witness :
  head (page_buttons (render 5 10 true true)) = Some 1
  /\ last (page_buttons (render 5 10 true true)) = Some 10.
Proof.
  apply (proj2 (first_and_last_page_offered 5 10 true true)). lia.
Defined.

(** A click on the bar never asks for a page below 1, when the current
    page is at least 1 and the previous-page button is enabled only
    above page 1. *)
Lemma click_target_positive (currentPage totalPages : Z)
  (hasNext hasPrev : bool) (item : Item) (target : Z) :
  1 <= currentPage ->
  hasPrev = (1 <? currentPage) ->
  item ∈ render currentPage totalPages hasNext hasPrev ->
  click item = Some target ->
  1 <= target.
Proof.
  intros Hcp Hprev Hitem Hclick.
  pose proof (window_ends currentPage totalPages) as Hw. cbv zeta in Hw.
  destruct Hw as (Hs & He & _ & _ & Hs1 & He1 & _).
  apply elem_of_render in Hitem.
  destruct Hitem as [-> | [[-> Hfirst] | [-> | [(page & -> & Hpage)
                    | [[-> Hlast] | ->]]]]]; simpl in Hclick.
  - destruct hasPrev; [| discriminate]. injection Hclick as <-.
    symmetry in Hprev. apply Z.ltb_lt in Hprev. lia.
  - injection Hclick as <-. lia.
  - discriminate.
  - injection Hclick as <-. rewrite pages_seqZ, elem_of_seqZ in Hpage. lia.
  - injection Hclick as <-. lia.
  - destruct hasNext; [| discriminate]. injection Hclick as <-. lia.
Qed.

(** X4. When the current page is at least 1 and the two flags are
    the ones the search handler computes (hasPrev = page > 1, hasNext =
    page < totalPages), every item of the bar that reacts to a click asks
    for a page that is at least 1, and at most [totalPages] when the
    current page is. *)
Theorem clicks_stay_in_range (currentPage totalPages : Z)
  (hasNext hasPrev : bool) (item : Item) (target : Z) :
  1 <= currentPage ->
  hasPrev = (1 <? currentPage) ->
  hasNext = (currentPage <? totalPages) ->
  item ∈ render currentPage totalPages hasNext hasPrev ->
  click item = Some target ->
  1 <= target /\ (currentPage <= totalPages -> target <= totalPages).
Proof.
  intros Hcp Hprev Hnext Hitem Hclick.
  pose proof (window_ends currentPage totalPages) as Hw. cbv zeta in Hw.
  destruct Hw as (Hs & He & _ & _ & Hs1 & He1 & _).
  apply elem_of_render in Hitem.
  destruct Hitem as [-> | [[-> Hfirst] | [-> | [(page & -> & Hpage)
                    | [[-> Hlast] | ->]]]]]; simpl in Hclick.
  - destruct hasPrev; [| discriminate]. injection Hclick as <-.
    symmetry in Hprev. apply Z.ltb_lt in Hprev. lia.
  - injection Hclick as <-. lia.
  - discriminate.
  - injection Hclick as <-. rewrite pages_seqZ, elem_of_seqZ in Hpage. lia.
  - injection Hclick as <-. lia.
  - destruct hasNext; [| discriminate]. injection Hclick as <-.
    symmetry in Hnext. apply Z.ltb_lt in Hnext. lia.
Qed.

Lemma clicks_stay_in_range_witness :
  1 <= 4 /\ (5 <= 10 -> 4 <= 10).
Proof.
  apply (clicks_stay_in_range 5 10 true true (PrevButton true 4) 4).
  - lia.
  - reflexivity.
  - reflexivity.
  - apply list_elem_of_here.
  - reflexivity.
Defined.

End PaginatorSpec.

(** ** Paging through the result of a search *)

Module SearchPaging.
Import Js Search JsFacts.

Local Open Scope string_scope.
Local Open Scope Z_scope.

Lemma skip_of_Z (sp : URLSearchParams) (p l : Z) :
  page sp = of_Z p -> limit sp = of_Z l -> skip sp = of_Z ((p - 1) * l).
Proof.
  intros Hp Hl. unfold skip. rewrite Hp, Hl, sub_of_Z, mul_of_Z. reflexivity.
Qed.

Lemma totalPages_of_Z (sp : URLSearchParams) (total l : Z) :
  limit sp = of_Z l -> 0 < l ->
  pg_totalPages (pagination sp total) = of_Z (- ((- total) / l)).
Proof.
  intros Hl Hpos. unfold pagination; cbn [pg_totalPages]. rewrite Hl.
  apply ceil_div_of_Z. exact Hpos.
Qed.

(** X5. When the effective page and limit are integers and the limit
    is positive, the page query skips (page - 1) * limit rows and takes
    limit rows; hasNext holds exactly when rows remain after the ones
    taken, and hasPrev exactly when some row is skipped. *)
Theorem flags_tell_the_neighbours (sp : URLSearchParams) (total p l : Z) :
  page sp = of_Z p -> limit sp = of_Z l -> 1 <= l ->
  arg_skip (findManyArgs sp) = of_Z ((p - 1) * l)
  /\ arg_take (findManyArgs sp) = of_Z l
  /\ (pg_hasNext (pagination sp total) = true <-> (p - 1) * l + l < total)
  /\ (pg_hasPrev (pagination sp total) = true <-> 0 < (p - 1) * l).
Proof.
  intros Hp Hl Hpos.
  pose proof (ceil_quotient_bounds total l ltac:(lia)) as Hb.
  split; [apply skip_of_Z; assumption |].
  split; [exact Hl |].
  unfold pagination; cbn [pg_hasNext pg_hasPrev]. rewrite Hp, Hl.
  rewrite ceil_div_of_Z by lia. rewrite lt_of_Z, gt_of_Z.
  rewrite !Z.ltb_lt. split; split; intros H; nia.
Qed.

Lemma flags_tell_the_neighbours_witness :
  arg_skip (findManyArgs [("page", "3"); ("limit", "7")]) = of_Z ((3 - 1) * 7)
  /\ arg_take (findManyArgs [("page", "3"); ("limit", "7")]) = of_Z 7
  /\ (pg_hasNext (pagination [("page", "3"); ("limit", "7")] 21) = true
      <-> (3 - 1) * 7 + 7 < 21)
  /\ (pg_hasPrev (pagination [("page", "3"); ("limit", "7")] 21) = true
      <-> 0 < (3 - 1) * 7).
Proof.
  apply (flags_tell_the_neighbours [("page", "3"); ("limit", "7")] 21 3 7).
  - reflexivity.
  - reflexivity.
  - lia.
Defined.

(** X6. For a positive integer limit, every row position below the
    count lies in the window of exactly one page, and that page is
    between 1 and totalPages: the pages 1..totalPages cover the matching
    rows without gap or overlap. *)
Theorem every_row_on_one_page (sp : URLSearchParams) (total l r : Z) :
  limit sp = of_Z l -> 1 <= l -> 0 <= r < total ->
  exists p t : Z,
    pg_totalPages (pagination sp total) = of_Z t
    /\ 1 <= p <= t
    /\ forall (sp' : URLSearchParams) (q : Z),
         page sp' = of_Z q -> limit sp' = of_Z l ->
         exists k, skip sp' = of_Z k /\ (k <= r < k + l <-> q = p).
Proof.
  intros Hl Hpos Hr.
  pose proof (ceil_quotient_bounds total l ltac:(lia)) as Hb.
  pose proof (Z.div_mod r l ltac:(lia)) as Hdm.
  pose proof (Z.mod_pos_bound r l ltac:(lia)) as Hmod.
  exists (r / l + 1), (- ((- total) / l)).
  split; [apply totalPages_of_Z; [exact Hl | lia] |].
  split; [nia |].
  intros sp' q Hq Hl'. exists ((q - 1) * l).
  split; [apply skip_of_Z; assumption |].
  split; intros H; nia.
Qed.

Lemma every_row_on_one_page_witness :
  exists p t : Z,
    pg_totalPages (pagination [("limit", "7")] 20) = of_Z t
    /\ 1 <= p <= t
    /\ forall (sp' : URLSearchParams) (q : Z),
         page sp' = of_Z q -> limit sp' = of_Z 7 ->
         exists k, skip sp' = of_Z k /\ (k <= 15 < k + 7 <-> q = p).
Proof.
  apply (every_row_on_one_page [("limit", "7")] 20 7 15).
  - reflexivity.
  - lia.
  - lia.
Defined.

End SearchPaging.

(** ** Further properties of the author statistics *)

From Stdlib Require OrderedTypeEx.

Module StatsMore.
Import Js Stats JsFacts StatsSpec.

Local Open Scope string_scope.
Local Open Scope Z_scope.
Local Open Scope list_scope.

(** *** Status of the response *)

(** X7. The statistics handler answers 404 exactly when the store
    finds no author, 500 exactly when one of the two store calls throws,
    and otherwise 200 with a payload that names the author and counts
    the books: reading the first and last book and the two scans never
    throw. *)
Theorem status_follows_the_store
  (findUnique : string -> outcome (option Author))
  (findMany : string -> outcome (list Book)) (id : string) :
  (status (GET findUnique findMany id) = 404 <-> findUnique id = Returns None)
  /\ (status (GET findUnique findMany id) = 500 <->
      findUnique id = Throws
      \/ exists author, findUnique id = Returns (Some author)
                        /\ findMany id = Throws)
  /\ (forall author books,
        findUnique id = Returns (Some author) ->
        findMany id = Returns books ->
        exists s, GET findUnique findMany id
                  = {| status := 200; body := StatsBody s |}
                  /\ stats author books = Returns s
                  /\ authorId s = author_id author
                  /\ authorName s = author_name author
                  /\ totalBooks s = Z.of_nat (length books)).
Proof.
  unfold GET.
  destruct (findUnique id) as [[author|]|] eqn:Hauthor; simpl.
  - destruct (findMany id) as [books|] eqn:Hbooks; simpl.
    + destruct (stats_fields author books)
        as (first & latest & longest & shortest & _ & _ & _ & _ & Hs).
      rewrite Hs. simpl.
      split; [split; [discriminate | intros H; discriminate] |].
      split.
      { split; [discriminate |].
        intros [H | (a & _ & H)]; discriminate. }
      intros author' books' Ha Hb.
      injection Ha as <-. injection Hb as <-.
      eexists. split; [reflexivity |]. split; [exact Hs |].
      repeat split.
    + split; [split; [discriminate | intros H; discriminate] |].
      split.
      { split; [| reflexivity]. intros _. right. exists author. tauto. }
      intros author' books' _ Hb. discriminate.
    - split; [split; reflexivity |].
      split.
      { split; [discriminate |].
        intros [H | (a & H & _)]; discriminate. }
      intros author books Ha. discriminate.
    - split; [split; [discriminate | intros H; discriminate] |].
      split.
      { split; [| reflexivity]. intros _. left. reflexivity. }
      intros author books Ha. discriminate.
Qed.

(** *** The average lies between the extremes *)

Lemma pageCounts_keys (books : list Book) :
  pageCounts books = (fun b => or_zero (pages b)) <$> booksWithPages books.
Proof.
  unfold pageCounts, booksWithPages.
  induction books as [|b books IH]; [reflexivity |].
  destruct (pages b) as [p|] eqn:Hp.
  - rewrite filter_cons_True by (rewrite Hp; discriminate).
    rewrite fmap_cons, Hp, <- IH. simpl. rewrite Hp. reflexivity.
  - rewrite filter_cons_False by (rewrite Hp; intros Hn; apply Hn; reflexivity).
    rewrite <- IH. simpl. rewrite Hp. reflexivity.
Qed.

Lemma sum_between (a b : Z) (counts : list Z) :
  Forall (fun p => a <= p <= b) counts ->
  Z.of_nat (length counts) * a <= foldr Z.add 0 counts
  <= Z.of_nat (length counts) * b.
Proof.
  induction 1 as [|p counts Hp _ IH]; simpl foldr; simpl length; nia.
Qed.

(** X8. When some book has a page count, the payload has a
    shortest and a longest book with page counts a and b, and
    averagePages is an integer between a and b. *)
Theorem average_between_extremes (author : Author) (books : list Book) :
  (exists book, book ∈ books /\ pages book <> None) ->
  exists s lo hi avg a b,
    stats author books = Returns s
    /\ stats_shortestBook s = Some lo
    /\ stats_longestBook s = Some hi
    /\ stats_averagePages s = of_Z avg
    /\ bp_pages lo = Some a
    /\ bp_pages hi = Some b
    /\ a <= avg <= b.
Proof.
  intros (book & Hbook & Hpages).
  destruct (stats_fields author books)
    as (first & latest & longest & shortest & _ & _ & Hlg & Hsh & Hs).
  rewrite longestBook_eq in Hlg. rewrite shortestBook_eq in Hsh.
  injection Hlg as <-. injection Hsh as <-.
  assert (Hin : book ∈ booksWithPages books)
    by (apply elem_of_booksWithPages; tauto).
  pose proof (pageCounts_keys books) as Hkeys.
  pose proof (averagePages_eq books) as Havg.
  destruct (booksWithPages books) as [|x l] eqn:Hbwp;
    [apply elem_of_nil in Hin; contradiction |].
  set (key := fun b : Book => or_zero (pages b)) in *.
  destruct (foldl_first_greatest key longer (fun _ _ => eq_refl) l x)
    as (l1 & l2 & Heq & Hl1 & Hl2).
  destruct (foldl_first_greatest (fun b => - key b) shorter) with (l := l) (x := x)
    as (k1 & k2 & Heq' & Hk1 & Hk2).
  { intros acc b. unfold shorter, key.
    destruct (Z.ltb_spec (or_zero (pages b)) (or_zero (pages acc))),
             (Z.gtb_spec (- or_zero (pages b)) (- or_zero (pages acc)));
      (reflexivity || lia). }
  set (hi := foldl longer x l) in *. set (lo := foldl shorter x l) in *.
  assert (Hhi : forall b, b ∈ x :: l -> key b <= key hi).
  { intros b Hb. rewrite Heq in Hb. rewrite Forall_forall in Hl1, Hl2.
    apply elem_of_app in Hb. destruct Hb as [Hb | Hb].
    - specialize (Hl1 b Hb). simpl in Hl1. lia.
    - apply elem_of_cons in Hb. destruct Hb as [-> | Hb]; [lia |].
      exact (Hl2 b Hb). }
  assert (Hlo : forall b, b ∈ x :: l -> key lo <= key b).
  { intros b Hb. rewrite Heq' in Hb. rewrite Forall_forall in Hk1, Hk2.
    apply elem_of_app in Hb. destruct Hb as [Hb | Hb].
    - specialize (Hk1 b Hb). simpl in Hk1. lia.
    - apply elem_of_cons in Hb. destruct Hb as [-> | Hb]; [lia |].
      specialize (Hk2 b Hb). simpl in Hk2. lia. }
  assert (Hmem : forall b, b ∈ x :: l -> pages b = Some (key b)).
  { intros b Hb. rewrite <- Hbwp in Hb. apply elem_of_booksWithPages in Hb.
    destruct Hb as [_ Hb]. unfold key. destruct (pages b); [reflexivity | congruence]. }
  assert (Hhi_in : hi ∈ x :: l)
    by (rewrite Heq; apply elem_of_app; right; apply list_elem_of_here).
  assert (Hlo_in : lo ∈ x :: l)
    by (rewrite Heq'; apply elem_of_app; right; apply list_elem_of_here).
  assert (Hall : Forall (fun p => key lo <= p <= key hi) (pageCounts books)).
  { rewrite Hkeys. apply Forall_fmap, Forall_forall. intros b Hb. simpl.
    split; [apply Hlo | apply Hhi]; exact Hb. }
  apply sum_between in Hall.
  destruct (pageCounts books) as [|p counts] eqn:Hc; [discriminate |].
  set (n := Z.of_nat (length (p :: counts))) in *.
  set (sum := foldr Z.add 0 (p :: counts)) in *.
  assert (Hn : 0 < n) by (unfold n; simpl length; lia).
  eexists _, {| bp_title := title lo; bp_pages := pages lo |},
         {| bp_title := title hi; bp_pages := pages hi |},
         ((2 * sum + n) / (2 * n)), (key lo), (key hi).
  split; [exact Hs |]. simpl.
  split; [reflexivity |]. split; [reflexivity |]. split; [exact Havg |].
  split; [apply Hmem; exact Hlo_in |]. split; [apply Hmem; exact Hhi_in |].
  split.
  - apply Z.div_le_lower_bound; lia.
  - assert ((2 * sum + n) / (2 * n) < key hi + 1); [| lia].
    apply Z.div_lt_upper_bound; lia.
Qed.

Lemma average_between_extremes_witness :
  exists s lo hi avg a b,
    stats {| author_id := "a1"; author_name := "Ana" |}
      [Build_Book "b1" "Uno" None (Some 120) None;
       Build_Book "b2" "Dos" None (Some 305) None;
       Build_Book "b3" "Tres" None None None] = Returns s
    /\ stats_shortestBook s = Some lo
    /\ stats_longestBook s = Some hi
    /\ stats_averagePages s = of_Z avg
    /\ bp_pages lo = Some a
    /\ bp_pages hi = Some b
    /\ a <= avg <= b.
Proof.
  apply (average_between_extremes
           {| author_id := "a1"; author_name := "Ana" |}
           [Build_Book "b1" "Uno" None (Some 120) None;
            Build_Book "b2" "Dos" None (Some 305) None;
            Build_Book "b3" "Tres" None None None]).
  exists (Build_Book "b1" "Uno" None (Some 120) None).
  split; [apply list_elem_of_here | discriminate].
Defined.

(** *** The order of the books *)

Lemma string_lt_trans (x y z : string) :
  string_lt x y -> string_lt y z -> string_lt x z.
Proof.
  unfold string_lt, String.ltb. intros Hxy Hyz.
  destruct (String.compare x y) eqn:Hc1; try discriminate.
  destruct (String.compare y z) eqn:Hc2; try discriminate.
  apply OrderedTypeEx.String_as_OT.cmp_lt in Hc1, Hc2.
  pose proof (OrderedTypeEx.String_as_OT.lt_trans _ _ _ Hc1 Hc2) as Hlt.
  apply OrderedTypeEx.String_as_OT.cmp_lt in Hlt.
  unfold OrderedTypeEx.String_as_OT.cmp in Hlt. rewrite Hlt. reflexivity.
Qed.

Lemma string_lt_irrefl (x : string) : ~ string_lt x x.
Proof.
  unfold string_lt, String.ltb. intros H.
  destruct (String.compare x x) eqn:Hc; try discriminate.
  apply OrderedTypeEx.String_as_OT.cmp_lt in Hc.
  exact (OrderedTypeEx.String_as_OT.lt_not_eq _ _ Hc eq_refl).
Qed.

(** The genre list as strings, told by its elements. *)
Lemma genres_shape (books : list Book) :
  exists gs : list string,
    genres books = Some <$> gs
    /\ StronglySorted string_lt gs
    /\ NoDup gs
    /\ forall g, g ∈ gs <-> Some g ∈ genres books.
Proof.
  exists (ToString <$> genres books).
  assert (Hsome : genres books = Some <$> (ToString <$> genres books)).
  { apply all_Some_fmap. intros o Ho. apply elem_of_genres in Ho.
    destruct Ho as (g & -> & _). exists g. reflexivity. }
  assert (Hnd : NoDup (ToString <$> genres books)).
  { apply (NoDup_fmap_1 Some). rewrite <- Hsome.
    unfold genres. rewrite sort_Permutation. apply Set_from_spec. }
  split; [exact Hsome |]. split; [| split; [exact Hnd |]].
  - apply Sorted_StronglySorted.
    + intros x y z. apply string_lt_trans.
    + apply Sorted_NoDup_strict; [| exact Hnd].
      eapply Sorted_fmap; [| apply sort_Sorted].
      intros u v Huv. exact Huv.
  - intros g. rewrite Hsome at 2. split.
    + intros Hg. apply list_elem_of_fmap. exists g. tauto.
    + intros Hg. apply list_elem_of_fmap in Hg.
      destruct Hg as (g' & Heq & Hg'). congruence.
Qed.

Lemma sum_Permutation (l k : list Z) :
  l ≡ₚ k -> foldr Z.add 0 l = foldr Z.add 0 k.
Proof. induction 1; simpl; lia. Qed.

(** X9. The genre list and averagePages do not depend on the order
    in which the store hands the books over: two lists that are
    permutations of one another give the same genres and the same
    averagePages. *)
Theorem order_of_books_irrelevant (books books' : list Book) :
  books ≡ₚ books' ->
  genres books = genres books' /\ averagePages books = averagePages books'.
Proof.
  intros Hperm. split.
  - destruct (genres_shape books) as (gs & Hgs & Hsorted & Hnd & Hin).
    destruct (genres_shape books') as (gs' & Hgs' & Hsorted' & Hnd' & Hin').
    rewrite Hgs, Hgs'. f_equal.
    apply (StronglySorted_unique_strong string_lt); try assumption.
    + intros x y _ _ Hxy Hyx. exfalso.
      exact (string_lt_irrefl x (string_lt_trans x y x Hxy Hyx)).
    + apply NoDup_Permutation; try assumption.
      intros g. rewrite Hin, Hin', !elem_of_genres.
      split; intros (g0 & Hg0 & Hne & b & Hb & Hgb);
        exists g0; (split; [exact Hg0 |]); (split; [exact Hne |]);
        exists b; (split; [| exact Hgb]).
      * rewrite <- Hperm. exact Hb.
      * rewrite Hperm. exact Hb.
  - rewrite !averagePages_eq.
    assert (Hcounts : pageCounts books ≡ₚ pageCounts books')
      by (unfold pageCounts; rewrite Hperm; reflexivity).
    pose proof (Permutation_length Hcounts) as Hlen.
    pose proof (sum_Permutation _ _ Hcounts) as Hsum.
    destruct (pageCounts books) as [|p l], (pageCounts books') as [|p' l'];
      try discriminate; [reflexivity |].
    cbv zeta. rewrite Hlen, Hsum. reflexivity.
Qed.

Lemma order_of_books_irrelevant_witness :
  genres [Build_Book "b1" "Uno" None (Some 120) (Some "novela");
          Build_Book "b2" "Dos" None (Some 305) (Some "ensayo")]
  = genres [Build_Book "b2" "Dos" None (Some 305) (Some "ensayo");
            Build_Book "b1" "Uno" None (Some 120) (Some "novela")]
  /\ averagePages [Build_Book "b1" "Uno" None (Some 120) (Some "novela");
                   Build_Book "b2" "Dos" None (Some 305) (Some "ensayo")]
     = averagePages [Build_Book "b2" "Dos" None (Some 305) (Some "ensayo");
                     Build_Book "b1" "Uno" None (Some 120) (Some "novela")].
Proof.
  apply (order_of_books_irrelevant
           [Build_Book "b1" "Uno" None (Some 120) (Some "novela");
            Build_Book "b2" "Dos" None (Some 305) (Some "ensayo")]
           [Build_Book "b2" "Dos" None (Some 305) (Some "ensayo");
            Build_Book "b1" "Uno" None (Some 120) (Some "novela")]).
  apply Permutation_swap.
Defined.

(** X10. The payload never lists more genres than the author has
    books. *)
Theorem genres_at_most_books (author : Author) (books : list Book) :
  exists s, stats author books = Returns s
            /\ Z.of_nat (length (stats_genres s)) <= totalBooks s.
Proof.
  destruct (stats_fields author books)
    as (first & latest & longest & shortest & _ & _ & _ & _ & Hs).
  eexists. split; [exact Hs |]. simpl.
  apply inj_le. rewrite <- (length_fmap genre books).
  apply submseteq_length, NoDup_submseteq.
  - unfold genres. rewrite sort_Permutation. apply Set_from_spec.
  - intros o Ho. apply elem_of_genres in Ho.
    destruct Ho as (g & -> & _ & b & Hb & Hg).
    apply list_elem_of_fmap. exists b. split; [congruence | exact Hb].
Qed.

End StatsMore.

(** ** Properties of the books page *)

Module BooksPageSpec.
Import Js JsText JsFacts JsTextFacts BooksPage.

Local Open Scope string_scope.
Local Open Scope Z_scope.
Local Open Scope list_scope.

(** *** The query of the page, as the handler reads it *)

Lemma truthy_false_empty (s : string) : truthy s = false -> s = "".
Proof. destruct s; [reflexivity | discriminate]. Qed.

Lemma or_else_Some_truthy (s d : string) :
  truthy s = true -> or_else (Some s) d = s.
Proof. destruct s; [discriminate | reflexivity]. Qed.

Lemma get_of_params (f : Filters) :
  let sp := fetchBooks_params f in
  Search.get "search" sp
  = (if truthy (searchTerm f) then Some (searchTerm f) else None)
  /\ Search.get "genre" sp
     = (if truthy (selectedGenre f) then Some (selectedGenre f) else None)
  /\ Search.get "authorName" sp
     = (if truthy (selectedAuthor f) then Some (selectedAuthor f) else None)
  /\ Search.get "page" sp = Some (toString (currentPage f))
  /\ Search.get "limit" sp = Some "9"
  /\ Search.get "sortBy" sp = Some (sortBy f)
  /\ Search.get "order" sp = Some (order f).
Proof.
  cbv zeta. unfold fetchBooks_params, append.
  destruct (truthy (searchTerm f)), (truthy (selectedGenre f)),
           (truthy (selectedAuthor f)); repeat split; reflexivity.
Qed.

Lemma filters_of_params (f : Filters) :
  Search.search (fetchBooks_params f) = searchTerm f
  /\ Search.genre (fetchBooks_params f) = selectedGenre f
  /\ Search.authorName (fetchBooks_params f) = selectedAuthor f.
Proof.
  pose proof (get_of_params f) as Hget. cbv zeta in Hget.
  destruct Hget as (Hs & Hg & Ha & _).
  unfold Search.search, Search.genre, Search.authorName.
  rewrite Hs, Hg, Ha.
  repeat split.
  - destruct (truthy (searchTerm f)) eqn:Ht.
    + apply or_else_Some_truthy. exact Ht.
    + apply truthy_false_empty in Ht. rewrite Ht. reflexivity.
  - destruct (truthy (selectedGenre f)) eqn:Ht.
    + apply or_else_Some_truthy. exact Ht.
    + apply truthy_false_empty in Ht. rewrite Ht. reflexivity.
  - destruct (truthy (selectedAuthor f)) eqn:Ht.
    + apply or_else_Some_truthy. exact Ht.
    + apply truthy_false_empty in Ht. rewrite Ht. reflexivity.
Qed.

Lemma page_of_params (f : Filters) :
  Search.page (fetchBooks_params f) = of_Z (currentPage f).
Proof.
  pose proof (get_of_params f) as Hget. cbv zeta in Hget.
  destruct Hget as (_ & _ & _ & Hp & _).
  unfold Search.page. rewrite Hp.
  rewrite or_else_Some_truthy by apply toString_truthy.
  apply parseInt_toString.
Qed.

Lemma limit_of_params (f : Filters) :
  Search.limit (fetchBooks_params f) = of_Z 9.
Proof.
  pose proof (get_of_params f) as Hget. cbv zeta in Hget.
  destruct Hget as (_ & _ & _ & _ & Hl & _).
  unfold Search.limit. rewrite Hl. reflexivity.
Qed.

Lemma skip_of_params (f : Filters) :
  Search.skip (fetchBooks_params f) = of_Z ((currentPage f - 1) * 9).
Proof.
  unfold Search.skip. rewrite page_of_params, limit_of_params.
  rewrite sub_of_Z, mul_of_Z. reflexivity.
Qed.

(** X11. Whatever the filters, the handler reads from the query of
    the page the current page as its page, 9 as its limit and
    (currentPage - 1) * 9 as its offset; its search term, genre and
    author name are the three filter fields, its filter object has a key
    exactly for each field that is not empty, and its pagination block is
    made of integers. *)
Theorem query_carries_the_filters (f : Filters) :
  let sp := fetchBooks_params f in
  Search.page sp = of_Z (currentPage f)
  /\ Search.limit sp = of_Z 9
  /\ Search.skip sp = of_Z ((currentPage f - 1) * 9)
  /\ Search.search sp = searchTerm f
  /\ Search.genre sp = selectedGenre f
  /\ Search.authorName sp = selectedAuthor f
  /\ Search.where_title (Search.where_ sp)
     = (if truthy (searchTerm f)
        then Some {| Search.contains := searchTerm f;
                     Search.mode := "insensitive" |}
        else None)
  /\ Search.where_genre (Search.where_ sp)
     = (if truthy (selectedGenre f) then Some (selectedGenre f) else None)
  /\ Search.where_author (Search.where_ sp)
     = (if truthy (selectedAuthor f)
        then Some {| Search.name :=
                       {| Search.contains := selectedAuthor f;
                          Search.mode := "insensitive" |} |}
        else None)
  /\ forall total, exists pg,
       Search.pagination sp total = as_response pg
       /\ page pg = currentPage f /\ limit pg = 9 /\ total = BooksPage.total pg.
Proof.
  cbv zeta. destruct (filters_of_params f) as (Hs & Hg & Ha).
  split; [apply page_of_params |].
  split; [apply limit_of_params |].
  split; [apply skip_of_params |].
  split; [exact Hs |]. split; [exact Hg |]. split; [exact Ha |].
  rewrite SearchSpec.where_title_eq, SearchSpec.where_genre_eq,
    SearchSpec.where_author_eq.
  rewrite Hs, Hg, Ha.
  split; [reflexivity |]. split; [reflexivity |]. split; [reflexivity |].
  intros total.
  exists {| page := currentPage f; limit := 9; total := total;
            totalPages := - ((- total) / 9);
            hasNext := (currentPage f <? - ((- total) / 9));
            hasPrev := (1 <? currentPage f) |}.
  split; [| repeat split].
  unfold Search.pagination, as_response.
  cbn [page limit BooksPage.total totalPages hasNext hasPrev].
  rewrite page_of_params, limit_of_params.
  rewrite ceil_div_of_Z by lia. rewrite lt_of_Z, gt_of_Z. reflexivity.
Qed.

(** *** The states of the page *)

Lemma well_formed_initial : well_formed initial.
Proof.
  unfold well_formed, initial; simpl.
  repeat split; try lia; try tauto; discriminate.
Qed.

Lemma well_formed_event (st : State) (e : Event) :
  well_formed st -> offered st e -> well_formed (after_event st e).
Proof.
  intros (Hcp & Horder & Hsort & Hpg) Hoffered.
  destruct e as [value | value | value | o | | p |]; unfold well_formed; simpl.
  - repeat split; try lia; try assumption; apply Hpg; assumption.
  - repeat split; try lia; try assumption; apply Hpg; assumption.
  - repeat split; try lia; try assumption; apply Hpg; assumption.
  - split; [exact Hcp |]. split; [exact Horder |].
    split; [destruct o; simpl; tauto | exact Hpg].
  - split; [exact Hcp |]. split; [| split; [exact Hsort | exact Hpg]].
    destruct (String.eqb (order (filters st)) "asc"); tauto.
  - split; [| split; [exact Horder | split; [exact Hsort | exact Hpg]]].
    simpl in Hoffered. destruct Hoffered as (item & Hitem & Hclick).
    unfold bar in Hitem.
    destruct (books st) as [|b bs];
      [apply elem_of_nil in Hitem; contradiction |].
    destruct (pagination st) as [pg|] eqn:Hst;
      [| apply elem_of_nil in Hitem; contradiction].
    destruct (1 <? totalPages pg);
      [| apply elem_of_nil in Hitem; contradiction].
    destruct (Hpg pg eq_refl) as (Hpage & Hprev & Hnext).
    exact (PaginatorSpec.click_target_positive _ _ _ _ _ _
             Hpage Hprev Hitem Hclick).
  - repeat split; try lia; try tauto; apply Hpg; assumption.
Qed.

Lemma well_formed_response (st asked : State) (total : Z) (data : list Book)
  (pg : PaginationInfo) :
  well_formed st -> well_formed asked ->
  Search.pagination (fetchBooks_params (filters asked)) total = as_response pg ->
  well_formed (after_response st data pg).
Proof.
  intros (Hcp & Horder & Hsort & _) (Hasked & _) Hresp.
  unfold Search.pagination in Hresp.
  rewrite page_of_params, limit_of_params in Hresp.
  rewrite ceil_div_of_Z in Hresp by lia.
  rewrite lt_of_Z, gt_of_Z in Hresp.
  unfold as_response in Hresp.
  injection Hresp as Hpage _ _ Htotal Hnext Hprev.
  unfold well_formed; simpl.
  split; [exact Hcp |]. split; [exact Horder |]. split; [exact Hsort |].
  intros pg' Hpg'. injection Hpg' as <-.
  rewrite <- Hpage, <- Htotal, <- Hnext, <- Hprev.
  repeat split. exact Hasked.
Qed.

Lemma reachable_well_formed (st : State) : reachable st -> well_formed st.
Proof.
  induction 1
    as [| st e _ IH Hoffered | st asked total data pg _ IH _ IHasked _ Hresp].
  - apply well_formed_initial.
  - apply well_formed_event; assumption.
  - eapply well_formed_response; eassumption.
Qed.

(** X12. In every state the page can reach from its initial state by
    edits of the filters, clicks on the pagination bar and responses of
    the handler (also late ones), the current page is at least 1 and the
    sort field and order are values the handler accepts: the query of
    the page has a non-negative offset, and the handler sorts by the
    field and order the page shows, without falling back. *)
Theorem page_never_asks_below_one (st : State) :
  reachable st ->
  1 <= currentPage (filters st)
  /\ Search.sortField (fetchBooks_params (filters st)) = sortBy (filters st)
  /\ Search.sortOrder (fetchBooks_params (filters st)) = order (filters st)
  /\ exists k, Search.skip (fetchBooks_params (filters st)) = of_Z k /\ 0 <= k.
Proof.
  intros Hreach. apply reachable_well_formed in Hreach.
  destruct Hreach as (Hcp & Horder & Hsort & _).
  pose proof (get_of_params (filters st)) as Hget. cbv zeta in Hget.
  destruct Hget as (_ & _ & _ & _ & _ & Hsb & Ho).
  split; [exact Hcp |]. split; [| split].
  - unfold Search.sortField, Search.sortBy. rewrite Hsb.
    destruct Hsort as [-> | [-> | ->]]; reflexivity.
  - unfold Search.sortOrder, Search.order. rewrite Ho.
    destruct Horder as [-> | ->]; reflexivity.
  - exists ((currentPage (filters st) - 1) * 9).
    split; [apply skip_of_params | lia].
Qed.

Lemma page_never_asks_below_one_witness :
  1 <= currentPage (filters (after_event initial (TypeSearch "quijote")))
  /\ Search.sortField
       (fetchBooks_params (filters (after_event initial (TypeSearch "quijote"))))
     = sortBy (filters (after_event initial (TypeSearch "quijote")))
  /\ Search.sortOrder
       (fetchBooks_params (filters (after_event initial (TypeSearch "quijote"))))
     = order (filters (after_event initial (TypeSearch "quijote")))
  /\ exists k,
       Search.skip
         (fetchBooks_params (filters (after_event initial (TypeSearch "quijote"))))
       = of_Z k /\ 0 <= k.
Proof.
  apply (page_never_asks_below_one (after_event initial (TypeSearch "quijote"))).
  apply reach_event.
  - apply reach_initial.
  - exact I.
Defined.

Lemma render_not_nil (currentPage totalPages : Z) (hasNext hasPrev : bool) :
  Paginator.render currentPage totalPages hasNext hasPrev <> [].
Proof. unfold Paginator.render. discriminate. Qed.

(** X13. After a response of the handler to a query of the page, the
    pagination bar is on display exactly when the response has rows and
    the count of matching rows exceeds the page size of 9. *)
Theorem bar_needs_a_second_page (st : State) (f : Filters) (total : Z)
  (data : list Book) (pg : PaginationInfo) :
  Search.pagination (fetchBooks_params f) total = as_response pg ->
  bar (after_response st data pg) <> [] <-> data <> [] /\ 9 < total.
Proof.
  intros Hresp.
  unfold Search.pagination in Hresp.
  rewrite page_of_params, limit_of_params in Hresp.
  rewrite ceil_div_of_Z in Hresp by lia.
  unfold as_response in Hresp.
  injection Hresp as _ _ _ Htotal _ _.
  pose proof (ceil_quotient_bounds total 9 ltac:(lia)) as Hb.
  unfold bar, after_response; simpl.
  destruct data as [|b data].
  - split; [congruence | intros [H _]; congruence].
  - rewrite <- Htotal.
    destruct (Z.ltb_spec 1 (- (- total / 9))) as [Hlt | Hge].
    + split; [intros _; split; [discriminate | lia]
             | intros _; apply render_not_nil].
    + split; [congruence | intros [_ H]; lia].
Qed.

Lemma bar_needs_a_second_page_witness :
  bar (after_response initial
         [Build_Book "b1" "Uno" None None None None None
            {| Search.author_id := "a1"; Search.author_name := "Ana";
               Search.author_email := "ana@example.org";
               Search.author_nationality := None |}]
         {| page := 1; limit := 9; total := 20; totalPages := 3;
            hasNext := true; hasPrev := false |}) <> []
  <-> [Build_Book "b1" "Uno" None None None None None
         {| Search.author_id := "a1"; Search.author_name := "Ana";
            Search.author_email := "ana@example.org";
            Search.author_nationality := None |}] <> [] /\ 9 < 20.
Proof.
  apply (bar_needs_a_second_page initial (filters initial) 20).
  reflexivity.
Defined.

(** *** The book form *)

Lemma parseInt_or_null_toString (n : option Z) :
  parseInt_or_null (toString_or_empty n) = of_Z <$> n.
Proof.
  destruct n as [n|]; [| reflexivity].
  unfold parseInt_or_null, toString_or_empty.
  rewrite toString_truthy, parseInt_toString. reflexivity.
Qed.

(** X14. Opening the form on a book and submitting it unchanged sends
    the book's title and author id, its year and page count as numbers
    (null where the book has none, never NaN), and its description, ISBN
    and genre as text, the empty string standing for a missing one. *)
Theorem edit_form_round_trip (book : Book) :
  handleSubmit_body (handleOpenModal (Some book))
  = {| body_title := title book;
       body_description := or_empty (description book);
       body_isbn := or_empty (isbn book);
       body_publishedYear := of_Z <$> publishedYear book;
       body_genre := or_empty (genre book);
       body_pages := of_Z <$> pages book;
       body_authorId := Search.author_id (author book) |}.
Proof.
  unfold handleSubmit_body, handleOpenModal; simpl.
  rewrite !parseInt_or_null_toString. reflexivity.
Qed.

(** *** The genre selector *)

Lemma uniqueGenres_as_genres (data : list Book) :
  uniqueGenres data
  = Stats.genres
      ((fun b => Stats.Build_Book (book_id b) (title b) (publishedYear b)
                   (pages b) (genre b)) <$> data).
Proof.
  rewrite StatsSpec.genres_of_column. unfold uniqueGenres. do 2 f_equal.
  induction data as [|b data IH]; [reflexivity |].
  rewrite !fmap_cons, !filter_cons. cbn [Stats.genre].
  destruct (decide (truthy_opt (genre b))).
  - rewrite fmap_cons, IH. reflexivity.
  - exact IH.
Qed.

(** X15. The options of the genre selector are the genres of the
    books on display that are neither null nor empty, each once, in
    ascending order.  When every book on display has the same non-empty
    genre, as under a genre filter, the selector offers that genre
    alone. *)
Theorem genre_options (data : list Book) :
  exists gs : list string,
    uniqueGenres data = Some <$> gs
    /\ StronglySorted Stats.string_lt gs
    /\ NoDup gs
    /\ (forall g, g ∈ gs <->
          g <> "" /\ exists b, b ∈ data /\ genre b = Some g)
    /\ (forall g, g <> "" -> data <> [] ->
          (forall b, b ∈ data -> genre b = Some g) -> gs = [g]).
Proof.
  rewrite uniqueGenres_as_genres.
  set (books := _ <$> data).
  destruct (StatsMore.genres_shape books) as (gs & Hgs & Hsorted & Hnd & Hin).
  assert (Hmem : forall g, g ∈ gs <->
                   g <> "" /\ exists b, b ∈ data /\ genre b = Some g).
  { intros g. rewrite Hin, StatsSpec.elem_of_genres. split.
    - intros (g0 & Heq & Hne & b & Hb & Hg). injection Heq as <-.
      split; [exact Hne |]. unfold books in Hb.
      apply list_elem_of_fmap in Hb. destruct Hb as (b0 & -> & Hb0).
      exists b0. split; [exact Hb0 | exact Hg].
    - intros (Hne & b & Hb & Hg). exists g.
      split; [reflexivity |]. split; [exact Hne |].
      eexists. split; [apply list_elem_of_fmap; exists b; split;
                        [reflexivity | exact Hb] | exact Hg]. }
  exists gs. split; [exact Hgs |]. split; [exact Hsorted |].
  split; [exact Hnd |]. split; [exact Hmem |].
  intros g Hne Hdata Hall.
  apply Permutation_singleton_r. apply NoDup_Permutation.
  - exact Hnd.
  - apply NoDup_singleton.
  - intros g'. rewrite Hmem, list_elem_of_singleton. split.
    + intros (_ & b & Hb & Hg). specialize (Hall b Hb). congruence.
    + intros ->. split; [exact Hne |].
      destruct data as [|b data]; [congruence |].
      exists b. split; [apply list_elem_of_here |].
      apply Hall, list_elem_of_here.
Qed.

End BooksPageSpec.

(** ** Properties of the author pages *)

Module AuthorPagesSpec.
Import Js JsText JsFacts JsTextFacts AuthorPages.

Local Open Scope string_scope.
Local Open Scope Z_scope.
Local Open Scope list_scope.

(** X16. Opening the author form on an author and submitting it
    unchanged sends the author's name and email, the birth year as a
    number (null where there is none, never NaN), and the biography and
    nationality as text, the empty string standing for a missing one. *)
Theorem author_form_round_trip (author : Author) :
  handleSubmit_body (handleOpenModal (Some author))
  = {| body_name := name author;
       body_email := email author;
       body_bio := or_empty (bio author);
       body_nationality := or_empty (nationality author);
       body_birthYear := of_Z <$> birthYear author |}.
Proof.
  unfold handleSubmit_body, handleOpenModal; simpl.
  rewrite BooksPageSpec.parseInt_or_null_toString. reflexivity.
Qed.

(** X17. For the payload the handler computes from books by ascending
    year, the statistics panel is shown exactly when the author has a
    book; its "years active" tile shows a dash exactly when no book has
    a year, and otherwise the number y1 - y0 + 1 where y0 and y1 are the
    least and the greatest year of the books, which is at least 1. *)
Theorem years_active_tile (author : Stats.Author) (books : list Stats.Book)
  (s : Stats.AuthorStats) :
  Stats.by_year_asc books ->
  Stats.stats author books = Returns s ->
  (showsPanel (Some s) = true <-> books <> [])
  /\ (yearsActive s = None <->
      forall b, b ∈ books -> Stats.publishedYear b = None)
  /\ (forall d, yearsActive s = Some d ->
        exists y0 y1,
          d = y1 - y0 + 1 /\ 1 <= d
          /\ (exists b, b ∈ books /\ Stats.publishedYear b = Some y0)
          /\ (exists b, b ∈ books /\ Stats.publishedYear b = Some y1)
          /\ forall b y, b ∈ books -> Stats.publishedYear b = Some y ->
               y0 <= y <= y1).
Proof.
  intros Hsorted Hstats.
  destruct (StatsSpec.stats_fields author books)
    as (first & latest & longest & shortest & Hf & Hl & _ & _ & Hs).
  rewrite StatsSpec.firstBook_eq in Hf. rewrite StatsSpec.latestBook_eq in Hl.
  injection Hf as <-. injection Hl as <-.
  rewrite Hs in Hstats. injection Hstats as <-.
  unfold showsPanel, yearsActive; simpl.
  split.
  { rewrite Z.ltb_lt. destruct books; simpl; split; intros H; try lia; congruence. }
  destruct (head (Stats.booksWithYear books)) as [f|] eqn:Hhead.
  - assert (Hne : Stats.booksWithYear books <> [])
      by (intros Hnil; rewrite Hnil in Hhead; discriminate).
    destruct (last (Stats.booksWithYear books)) as [l|] eqn:Hlast;
      [| apply last_None in Hlast; contradiction].
    destruct (StatsSpec.first_has_least_year books f Hsorted Hhead)
      as (y0 & Hy0 & Hleast).
    destruct (StatsSpec.latest_has_greatest_year books l Hsorted Hlast)
      as (y1 & Hy1 & Hgreatest).
    assert (Hf_in : f ∈ books).
    { apply head_Some_elem_of in Hhead.
      apply StatsSpec.elem_of_booksWithYear in Hhead. tauto. }
    assert (Hl_in : l ∈ books).
    { apply last_Some_elem_of in Hlast.
      apply StatsSpec.elem_of_booksWithYear in Hlast. tauto. }
    simpl. split.
    + split; [discriminate |]. intros Hnone.
      specialize (Hnone f Hf_in). congruence.
    + intros d Hd. injection Hd as <-. rewrite Hy0, Hy1. simpl.
      exists y0, y1. split; [reflexivity |].
      pose proof (Hleast l y1 Hl_in Hy1).
      split; [lia |].
      split; [exists f; tauto |]. split; [exists l; tauto |].
      intros b y Hb Hy. split; [eapply Hleast | eapply Hgreatest]; eassumption.
  - apply head_None in Hhead. rewrite Hhead. simpl. split.
    + split; [| reflexivity]. intros _.
      apply StatsSpec.booksWithYear_nil. exact Hhead.
    + intros d Hd. discriminate.
Qed.

Lemma years_active_tile_witness :
  yearsActive
    {| Stats.authorId := "a1"; Stats.authorName := "Ana";
       Stats.totalBooks := 2;
       Stats.stats_firstBook :=
         Some {| Stats.by_title := "Uno"; Stats.year := Some 2001 |};
       Stats.stats_latestBook :=
         Some {| Stats.by_title := "Dos"; Stats.year := Some 2010 |};
       Stats.stats_averagePages := of_Z 100;
       Stats.stats_genres := [];
       Stats.stats_longestBook :=
         Some {| Stats.bp_title := "Uno"; Stats.bp_pages := Some 100 |};
       Stats.stats_shortestBook :=
         Some {| Stats.bp_title := "Uno"; Stats.bp_pages := Some 100 |} |}
  = Some 10
  /\ exists y0 y1, 10 = y1 - y0 + 1 /\ 1 <= 10.
Proof.
  split; [reflexivity |].
  destruct (years_active_tile
              {| Stats.author_id := "a1"; Stats.author_name := "Ana" |}
              [Stats.Build_Book "b1" "Uno" (Some 2001) (Some 100) None;
               Stats.Build_Book "b2" "Dos" (Some 2010) None None]
              _ ltac:(repeat constructor) eq_refl) as (_ & _ & Hd).
  destruct (Hd 10 eq_refl) as (y0 & y1 & Heq & Hpos & _).
  exists y0, y1. split; assumption.
Defined.

End AuthorPagesSpec.
